(** * django_mc.mixins: template hints, template names and render contexts

    A shallow embedding of [django_mc/mixins.py] and of the part of the
    Django template engine that [TemplateNameProvider.get_template_name]
    runs, followed by the properties of the module.

    Layout:
    - [Py]      Python values, exceptions and the effect monad of a method call;
    - [Django]  [Template(...)] and [Template.render(Context(...))] for the
                fragment of the template language the module uses;
    - the four classes of the module, one Rocq module per class;
    - [Demo]    concrete providers used to run the definitions;
    - the theorems. *)

From Stdlib Require Import Ascii String.
From stdpp Require Import base option list strings gmap fin_maps.

Local Open Scope string_scope.
Local Open Scope list_scope.
Local Open Scope nat_scope.

(* ===================================================================== *)
(** ** Python values and method calls *)
(* ===================================================================== *)

Module Py.

(** The Python values that reach the module: [None], booleans, plain
    strings (byte strings, one [ascii] per character) and plain objects.  A
    plain object is an instance such as a model instance: it is not
    callable, it defines no [__bool__], [__len__] or [__html__], and it is
    given by its identity and the text [str(obj)] yields.  Numbers, dates,
    strings marked safe and callables are not among these values. *)
Inductive pyval : Type :=
| PyNone
| PyBool (b : bool)
| PyStr (s : string)
| PyObj (id : positive) (text : string).

#[global] Instance pyval_eq_dec : EqDecision pyval.
Proof. solve_decision. Defined.

Definition pyval_enc (v : pyval) : unit + bool + string + positive * string :=
  match v with
  | PyNone => inl (inl (inl tt))
  | PyBool b => inl (inl (inr b))
  | PyStr s => inl (inr s)
  | PyObj i t => inr (i, t)
  end.

Definition pyval_dec (x : unit + bool + string + positive * string) : pyval :=
  match x with
  | inl (inl (inl _)) => PyNone
  | inl (inl (inr b)) => PyBool b
  | inl (inr s) => PyStr s
  | inr (i, t) => PyObj i t
  end.

#[global] Instance pyval_countable : Countable pyval.
Proof.
  refine (inj_countable' pyval_enc pyval_dec _).
  intros []; reflexivity.
Defined.

(** [bool(v)]: what [if v:] tests. *)
Definition truthy (v : pyval) : bool :=
  match v with
  | PyNone => false
  | PyBool b => b
  | PyStr s => negb (String.eqb s "")
  | PyObj _ _ => true
  end.

(** [str(v)]. *)
Definition str (v : pyval) : string :=
  match v with
  | PyNone => "None"
  | PyBool true => "True"
  | PyBool false => "False"
  | PyStr s => s
  | PyObj _ t => t
  end.

(** [a == b]; the values above compare equal only to themselves. *)
Definition eqb (a b : pyval) : bool := bool_decide (a = b).

(** [a or b]: the first operand when it is truthy, else the second. *)
Definition or_ (a b : pyval) : pyval := if truthy a then a else b.

(** [a and b]. *)
Definition and_ (a b : pyval) : pyval := if truthy a then b else a.

Definition is_str (v : pyval) : Prop :=
  match v with PyStr _ => True | _ => False end.

#[global] Instance is_str_dec v : Decision (is_str v).
Proof. destruct v; simpl; apply _. Defined.

(** [s.lower()] on a byte string: only [A]..[Z] change. *)
Definition lower_ascii (c : ascii) : ascii :=
  let n := nat_of_ascii c in
  if (65 <=? n)%nat && (n <=? 90)%nat then ascii_of_nat (n + 32) else c.

Fixpoint lower (s : string) : string :=
  match s with
  | EmptyString => EmptyString
  | String c s' => String (lower_ascii c) (lower s')
  end.

(** Exceptions a call can end with. *)
Inductive exn : Type :=
| TypeError
| TemplateSyntaxError
| TemplateDoesNotExist
| OtherError (name : string).

#[global] Instance exn_eq_dec : EqDecision exn.
Proof. solve_decision. Defined.

Inductive Result (A : Type) : Type :=
| Ok (a : A)
| Raise (e : exn).
Arguments Ok {A} a.
Arguments Raise {A} e.

#[global] Instance Result_ret : MRet Result := λ A a, Ok a.
#[global] Instance Result_bind : MBind Result :=
  λ A B k r, match r with Ok a => k a | Raise e => Raise e end.

(** Keyword arguments bound to [**kwargs]: a dict with string keys. *)
Abbreviation kwdict := (gmap string pyval).

(** A context mapping: a dict whose keys are any hashable value. *)
Abbreviation dict := (gmap pyval pyval).

(** [d.update(e)]: the entries of [e] win. *)
Definition update {K} `{Countable K} {V} (d e : gmap K V) : gmap K V := e ∪ d.

(** The keywords of a call [f(name=v, **kwargs)]: naming [name] twice is
    a [TypeError] at the call. *)
Definition with_keyword (name : string) (v : pyval) (kwargs : kwdict) : Result kwdict :=
  match kwargs !! name with
  | Some _ => Raise TypeError
  | None => Ok (<[name := v]> kwargs)
  end.

(** Binding the keywords of a call to a method whose parameters [params]
    are already filled: a keyword that names one of them is a [TypeError]. *)
Definition bind_keywords (params : list string) (kwargs : kwdict) : Result kwdict :=
  if existsb (λ p, bool_decide (is_Some (kwargs !! p))) params
  then Raise TypeError else Ok kwargs.

Section Effects.
Context {World : Type}.

(** A method call runs in the state of the program and either returns
    or raises; the state it leaves is kept in both cases. *)
Definition M (A : Type) : Type := World → Result A * World.

Definition ret {A} (a : A) : M A := λ w, (Ok a, w).

Definition raise {A} (e : exn) : M A := λ w, (Raise e, w).

Definition bind {A B} (m : M A) (k : A → M B) : M B :=
  λ w, match m w with
       | (Ok a, w') => k a w'
       | (Raise e, w') => (Raise e, w')
       end.

(** A computation without effects, lifted. *)
Definition lift {A} (r : Result A) : M A := λ w, (r, w).

End Effects.

Arguments M : clear implicits.

#[global] Instance M_ret {World} : MRet (M World) := @ret World.
#[global] Instance M_bind {World} : MBind (M World) := λ A B k m, bind m k.

Section Loops.
Context {World : Type}.

(** [for x in l: acc = body(acc, x)], left to right; an exception in
    the body ends the loop. *)
Fixpoint for_each {A S} (body : S → A → M World S) (acc : S) (l : list A)
  : M World S :=
  match l with
  | [] => ret acc
  | x :: l' => acc' ← body acc x; for_each body acc' l'
  end.

(** The calls [f x] for [x] in [l], left to right, and their results. *)
Fixpoint each {A B} (f : A → M World B) (l : list A) : M World (list B) :=
  match l with
  | [] => ret []
  | x :: l' => y ← f x; ys ← each f l'; ret (y :: ys)
  end.

End Loops.

End Py.

(* ===================================================================== *)
(** ** The template engine: [Template(s)] and [render(Context(d))] *)
(* ===================================================================== *)

(** [get_template_name] compiles its pattern with Django's [Template] and
    renders it with a [Context].  This module follows the engine on a
    fragment of its language, the one the pattern of the module is written
    in: text, [{{ name }}], [{# ... #}] and [{% if %}] / [{% else %}] /
    [{% endif %}] over [or], [and], [not], [==] and [!=], rendered with the
    values of [Py.pyval].  [Template] answers [None] for every other
    pattern; what the engine does with those is not described here but left
    to [render_outside], about which nothing is assumed. *)
Module Django.
Import Py.

Definition dquote : ascii := "034"%char.
Definition newline : ascii := "010"%char.

(** [django.utils.html.escape]: the five characters HTML reserves. *)
Definition escape_char (c : ascii) : string :=
  if decide (c = "&"%char) then "&amp;"
  else if decide (c = "<"%char) then "&lt;"
  else if decide (c = ">"%char) then "&gt;"
  else if decide (c = dquote) then "&quot;"
  else if decide (c = "'"%char) then "&#39;"
  else String c "".

Fixpoint escape (s : string) : string :=
  match s with
  | EmptyString => EmptyString
  | String c s' => escape_char c +:+ escape s'
  end.

(** *** Lexer *)

Inductive token : Type :=
| TokText (s : string)
| TokVar (s : string)
| TokBlock (s : string)
| TokComment.

Definition is_space (c : ascii) : bool :=
  bool_decide (c = " "%char) || bool_decide (c = "009"%char)
  || bool_decide (c = newline) || bool_decide (c = "013"%char).

Fixpoint lstrip (s : string) : string :=
  match s with
  | String c s' => if is_space c then lstrip s' else s
  | EmptyString => EmptyString
  end.

Fixpoint rstrip (s : string) : string :=
  match s with
  | String c s' =>
      match rstrip s' with
      | EmptyString => if is_space c then EmptyString else String c EmptyString
      | r => String c r
      end
  | EmptyString => EmptyString
  end.

Definition strip (s : string) : string := rstrip (lstrip s).

(** The shortest [.*?] followed by the two closing characters: the text in
    between and the number of characters read, closing pair included.  The
    dot of the pattern does not match a line break. *)
Fixpoint until_close (c1 c2 : ascii) (s : string) : option (string * nat) :=
  match s with
  | String a s' =>
      match s' with
      | String b _ =>
          if bool_decide (a = c1) && bool_decide (b = c2) then Some (EmptyString, 2)
          else if bool_decide (a = newline) then None
          else match until_close c1 c2 s' with
               | Some (body, n) => Some (String a body, S n)
               | None => None
               end
      | EmptyString => None
      end
  | EmptyString => None
  end.

(** A tag that starts at the head of [s], with its length:
    [{%.*?%}|{{.*?}}|{#.*?#}]. *)
Definition tag_at (s : string) : option (token * nat) :=
  match s with
  | String "{" (String k rest) =>
      if bool_decide (k = "%"%char) then
        match until_close "%" "}" rest with
        | Some (body, n) => Some (TokBlock (strip body), 2 + n)
        | None => None
        end
      else if bool_decide (k = "{"%char) then
        match until_close "}" "}" rest with
        | Some (body, n) => Some (TokVar (strip body), 2 + n)
        | None => None
        end
      else if bool_decide (k = "#"%char) then
        match until_close "#" "}" rest with
        | Some (body, n) => Some (TokComment, 2 + n)
        | None => None
        end
      else None
  | _ => None
  end.

Definition flush (text : string) : list token :=
  if String.eqb text "" then [] else [TokText text].

(** [Lexer.tokenize]: [skip] characters of a tag already emitted remain to
    be passed over, [text] is the literal text read since the last tag. *)
Fixpoint tokenize_from (s : string) (skip : nat) (text : string) : list token :=
  match s with
  | EmptyString => flush text
  | String c s' =>
      match skip with
      | S k => tokenize_from s' k text
      | O =>
          match tag_at s with
          | Some (tok, len) => flush text ++ tok :: tokenize_from s' (pred len) EmptyString
          | None => tokenize_from s' 0 (text +:+ String c EmptyString)
          end
      end
  end.

Definition tokenize (s : string) : list token := tokenize_from s 0 EmptyString.

(** [Token.split_contents]: split on white space, a quoted literal stays
    one word.  [quote] is the quote character of the literal being read,
    [word] the word read so far. *)
Fixpoint split_from (s : string) (quote : option ascii) (word : string) : list string :=
  match s with
  | EmptyString => if String.eqb word "" then [] else [word]
  | String c s' =>
      match quote with
      | Some q =>
          split_from s' (if bool_decide (c = q) then None else Some q)
                     (word +:+ String c EmptyString)
      | None =>
          if is_space c then
            (if String.eqb word "" then [] else [word]) ++ split_from s' None EmptyString
          else if bool_decide (c = dquote) || bool_decide (c = "'"%char) then
            split_from s' (Some c) (word +:+ String c EmptyString)
          else split_from s' None (word +:+ String c EmptyString)
      end
  end.

Definition split_contents (s : string) : list string := split_from s None EmptyString.

(** *** Parser *)

(** The expression of an [{% if %}] tag. *)
Inductive cond : Type :=
| CVar (name : string)
| CLit (v : pyval)
| CNot (c : cond)
| CAnd (a b : cond)
| COr (a b : cond)
| CEq (a b : cond)
| CNe (a b : cond).

#[local] Unset Elimination Schemes.
Inductive node : Type :=
| TextNode (s : string)
| VariableNode (name : string)
| IfNode (c : cond) (nodelist_true nodelist_false : list node).
#[local] Set Elimination Schemes.

Definition is_name_char (c : ascii) : bool :=
  let n := nat_of_ascii c in
  ((97 <=? n)%nat && (n <=? 122)%nat) || ((65 <=? n)%nat && (n <=? 90)%nat)
  || ((48 <=? n)%nat && (n <=? 57)%nat) || bool_decide (c = "_"%char).

Definition is_digit (c : ascii) : bool :=
  let n := nat_of_ascii c in (48 <=? n)%nat && (n <=? 57)%nat.

(** A variable without lookups or filters. *)
Definition parse_name (w : string) : option string :=
  match list_ascii_of_string w with
  | [] => None
  | c :: _ as cs =>
      if bool_decide (c = "_"%char) then None
      else if is_digit c then None
      else if forallb is_name_char cs then Some w
      else None
  end.

(** The words the [{% if %}] tag reads as operators. *)
Definition is_operator (w : string) : bool :=
  existsb (String.eqb w)
          ["or"; "and"; "not"; "in"; "is"; "=="; "!="; "<"; ">"; "<="; ">="; "="].

(** A quoted literal without escapes, or a variable. *)
Definition parse_atom (w : string) : option cond :=
  match list_ascii_of_string w with
  | q :: rest =>
      if bool_decide (q = dquote) || bool_decide (q = "'"%char) then
        match reverse rest with
        | q' :: inner =>
            if bool_decide (q' = q) && negb (existsb (λ c, bool_decide (c = "\"%char)) inner)
            then Some (CLit (PyStr (string_of_list_ascii (reverse inner))))
            else None
        | [] => None
        end
      else if is_operator w then None
      else name ← parse_name w; Some (CVar name)
  | [] => None
  end.

(** The words of [ws] between occurrences of [sep]. *)
Fixpoint split_on (sep : string) (ws : list string) (seg : list string)
  : list (list string) :=
  match ws with
  | [] => [seg]
  | w :: ws' =>
      if String.eqb w sep then seg :: split_on sep ws' []
      else split_on sep ws' (seg ++ [w])
  end.

(** The operators bind in the order [or] < [and] < [not] < [==], [!=],
    and the language has no brackets. *)
Definition parse_cmp (ws : list string) : option cond :=
  match ws with
  | [a] => parse_atom a
  | [a; op; b] =>
      if String.eqb op "==" then x ← parse_atom a; y ← parse_atom b; Some (CEq x y)
      else if String.eqb op "!=" then x ← parse_atom a; y ← parse_atom b; Some (CNe x y)
      else None
  | [] => None
  | _ => None
  end.

Fixpoint parse_not (ws : list string) : option cond :=
  match ws with
  | w :: ws' =>
      if String.eqb w "not" then c ← parse_not ws'; Some (CNot c) else parse_cmp ws
  | [] => None
  end.

Fixpoint parse_chain (op : cond → cond → cond) (leaf : list string → option cond)
    (acc : cond) (segs : list (list string)) : option cond :=
  match segs with
  | [] => Some acc
  | seg :: segs' => c ← leaf seg; parse_chain op leaf (op acc c) segs'
  end.

Definition parse_and (ws : list string) : option cond :=
  match split_on "and" ws [] with
  | seg :: segs => c ← parse_not seg; parse_chain CAnd parse_not c segs
  | [] => None
  end.

Definition parse_or (ws : list string) : option cond :=
  match split_on "or" ws [] with
  | seg :: segs => c ← parse_and seg; parse_chain COr parse_and c segs
  | [] => None
  end.

(** An [{% if %}] that is still open: the nodes before it, its expression,
    and its first branch once [{% else %}] has been read. *)
Record frame : Type := Frame {
  outer : list node;
  test : cond;
  nodelist_done : option (list node)
}.

(** [Parser.parse]: [cur] is the node list being filled, [stack] the open
    [{% if %}] tags around it. *)
Fixpoint parse (toks : list token) (stack : list frame) (cur : list node)
  : option (list node) :=
  match toks with
  | [] => match stack with [] => Some cur | _ => None end
  | TokText s :: toks' => parse toks' stack (cur ++ [TextNode s])
  | TokComment :: toks' => parse toks' stack cur
  | TokVar s :: toks' => name ← parse_name s; parse toks' stack (cur ++ [VariableNode name])
  | TokBlock s :: toks' =>
      match split_contents s with
      | [] => None
      | cmd :: bits =>
          if String.eqb cmd "if" then
            c ← parse_or bits; parse toks' (Frame cur c None :: stack) []
          else if String.eqb cmd "else" then
            match bits, stack with
            | [], Frame o c None :: stack' => parse toks' (Frame o c (Some cur) :: stack') []
            | _, _ => None
            end
          else if String.eqb cmd "endif" then
            match bits, stack with
            | [], Frame o c None :: stack' => parse toks' stack' (o ++ [IfNode c cur []])
            | [], Frame o c (Some t) :: stack' => parse toks' stack' (o ++ [IfNode c t cur])
            | _, _ => None
            end
          else None
      end
  end.

(** [Template(template_string)], for a pattern of the fragment. *)
Definition Template (template_string : string) : option (list node) :=
  parse (tokenize template_string) [] [].

(** *** Rendering *)

(** [Context(d)]: the engine puts [True], [False] and [None] below the
    entries of [d]. *)
Definition builtins : kwdict :=
  <["True" := PyBool true]> (<["False" := PyBool false]> (<["None" := PyNone]> ∅)).

Definition Context (d : kwdict) : kwdict := d ∪ builtins.

(** The value of an [{% if %}] expression; a variable that is not in the
    context is [None] there. *)
Fixpoint eval (ctx : kwdict) (c : cond) : pyval :=
  match c with
  | CVar name => default PyNone (ctx !! name)
  | CLit v => v
  | CNot a => PyBool (negb (truthy (eval ctx a)))
  | CAnd a b => and_ (eval ctx a) (eval ctx b)
  | COr a b => or_ (eval ctx a) (eval ctx b)
  | CEq a b => PyBool (eqb (eval ctx a) (eval ctx b))
  | CNe a b => PyBool (negb (eqb (eval ctx a) (eval ctx b)))
  end.

(** [{{ name }}] prints [str(value)] of a value of [pyval] ([None], a
    boolean, a plain string, a plain object), HTML-escaped since a
    [Context] has [autoescape=True]; a variable that is not in the context
    prints as the empty string ([string_if_invalid]). *)
Definition render_variable (ctx : kwdict) (name : string) : string :=
  match ctx !! name with
  | Some v => escape (str v)
  | None => EmptyString
  end.

Fixpoint render_node (ctx : kwdict) (n : node) {struct n} : string :=
  let render_nodelist :=
    fix go (l : list node) : string :=
      match l with
      | [] => EmptyString
      | n' :: l' => render_node ctx n' +:+ go l'
      end in
  match n with
  | TextNode s => s
  | VariableNode name => render_variable ctx name
  | IfNode c nodelist_true nodelist_false =>
      if truthy (eval ctx c) then render_nodelist nodelist_true
      else render_nodelist nodelist_false
  end.

(** [NodeList.render]. *)
Fixpoint render_nodelist (ctx : kwdict) (l : list node) : string :=
  match l with
  | [] => EmptyString
  | n :: l' => render_node ctx n +:+ render_nodelist ctx l'
  end.

(** [template.render(context)]. *)
Definition render (template : list node) (context : kwdict) : string :=
  render_nodelist context template.

(** [Template(template_string).render(context)] for a pattern outside the
    fragment: whatever the engine does there (refuse the pattern, load
    other templates, call into the objects of the context). *)
Class Engine (World : Type) : Type :=
  render_outside : string → kwdict → M World string.

End Django.

(* ===================================================================== *)
(** ** django_mc/mixins.py *)
(* ===================================================================== *)

Import Py.

(** The module is duck-typed: a name provider is any object with a
    [get_template_name] method, a hint provider any object with the three
    methods below.  A call [obj.method(...)] goes through these classes,
    one per method, so that a subclass which overrides a method is called
    with its own.  [N] is the type of the name providers, [P] of the hint
    providers of a list. *)
Class GetTemplateName (World N : Type) : Type :=
  call_get_template_name : N → kwdict → M World string.

Class GetTemplateHints (World N P : Type) : Type :=
  call_get_template_hints : P → N → list P → M World (list pyval).

Class SuggestContextData (World N P : Type) : Type :=
  call_suggest_context_data : P → N → list P → M World dict.

Class SuggestTemplateNames (World N P : Type) : Type :=
  call_suggest_template_names : P → N → list P → kwdict → M World (list string).

(** *** class TemplateHintProvider(object) *)
Module TemplateHintProvider.
Section Methods.
Context {World N P : Type} `{!GetTemplateName World N} `{!GetTemplateHints World N P}.

Definition get_template_hints (self : P) (name_provider : N) (hint_providers : list P)
  : M World (list pyval) :=
  ret [].

Definition suggest_context_data (self : P) (name_provider : N) (hint_providers : list P)
  : M World dict :=
  ret ∅.

Definition suggest_template_names (self : P) (name_provider : N)
    (hint_providers : list P) (kwargs : kwdict) : M World (list string) :=
  hints ← call_get_template_hints self name_provider hint_providers;
  for_each
    (λ template_names hint,
       if truthy hint then
         keywords ← lift (with_keyword "hint" hint kwargs);
         name ← call_get_template_name name_provider keywords;
         ret (template_names ++ [name])
       else ret template_names)
    [] hints.

End Methods.
End TemplateHintProvider.

(** *** class CompositeTemplateHintProvider(list) *)
Module CompositeTemplateHintProvider.
Section Methods.
Context {World N P : Type} `{!GetTemplateHints World N P}
  `{!SuggestContextData World N P} `{!SuggestTemplateNames World N P}.

(** [hint_providers=None] is [None]; any other argument is the list it
    holds. *)
Definition get_template_hints (self : list P) (name_provider : N)
    (hint_providers : option (list P)) : M World (list pyval) :=
  let hint_providers := match hint_providers with None => self | Some l => l end in
  for_each
    (λ template_hints hint_provider,
       hints ← call_get_template_hints hint_provider name_provider hint_providers;
       ret (template_hints ++ hints))
    [] hint_providers.

Definition suggest_context_data (self : list P) (name_provider : N)
    (hint_providers : option (list P)) : M World dict :=
  let hint_providers := match hint_providers with None => self | Some l => l end in
  for_each
    (λ context_data hint_provider,
       data ← call_suggest_context_data hint_provider name_provider hint_providers;
       ret (update context_data data))
    ∅ hint_providers.

Definition suggest_template_names (self : list P) (name_provider : N)
    (hint_providers : option (list P)) (kwargs : kwdict) : M World (list string) :=
  let hint_providers := match hint_providers with None => self | Some l => l end in
  for_each
    (λ template_names hint_provider,
       names ← call_suggest_template_names hint_provider name_provider
                 hint_providers kwargs;
       ret (template_names ++ names))
    [] hint_providers.

End Methods.
End CompositeTemplateHintProvider.

(** *** class TemplateNameProvider(object) *)
Module TemplateNameProvider.

(** [self._meta], the framework's description of the model. *)
Record Options : Type := {
  app_label : string;
  object_name : string
}.

(** An instance: its [_meta], the [template_name] attribute it sees (the
    class attribute unless a subclass sets another) and the object it is
    as a Python value. *)
Record t : Type := {
  _meta : Options;
  self_template_name : string;
  self_id : positive;
  self_text : string
}.

Definition quoted (s : string) : string :=
  String Django.dquote (s +:+ String Django.dquote EmptyString).

(** The class attribute [template_name]. *)
Definition template_name : string :=
  "{{app_label}}/" +:+
  "{%if partial or type == " +:+ quoted "partial" +:+ "%}_{%endif%}" +:+
  "{{object_name}}" +:+
  "{%if type != " +:+ quoted "partial" +:+ "%}_{{type}}{%endif%}" +:+
  "{%if hint%}_{{hint}}{%endif%}" +:+
  ".html".

Definition as_value (self : t) : pyval := PyObj (self_id self) (self_text self).

Definition get_app_label (self : t) : string := lower (app_label (_meta self)).

Definition get_model_name (self : t) : string := lower (object_name (_meta self)).

Section Methods.
Context {World : Type} `{!Django.Engine World}.

(** [keywords] are the keywords of the call: [template_name] binds the
    parameter of that name, the others are [**kwargs].  [Template] takes
    the text [str(template_name)] of its argument. *)
Definition get_template_name (self : t) (keywords : kwdict) : M World string :=
  let kwargs := delete "template_name" keywords in
  let template_name :=
    match keywords !! "template_name" with
    | None | Some PyNone => PyStr (self_template_name self)
    | Some v => v
    end in
  let context : kwdict :=
    <["app_label" := PyStr (get_app_label self)]>
      (<["object_name" := PyStr (get_model_name self)]>
         (<["object" := as_value self]> ∅)) in
  let context := update context kwargs in
  match Django.Template (str template_name) with
  | Some template => ret (Django.render template (Django.Context context))
  | None => Django.render_outside (str template_name) (Django.Context context)
  end.

(** [get_template_names] calls [self.get_template_name], whichever class
    defines it: it is written over any name provider. *)
Definition get_template_names {N P : Type} `{!GetTemplateName World N}
    `{!SuggestTemplateNames World N P} (self : N) (hint_providers : list P) (kwargs : kwdict)
  : M World (list string) :=
  template_names ←
    for_each
      (λ template_names hint_provider,
         names ← call_suggest_template_names hint_provider self hint_providers kwargs;
         ret (template_names ++ names))
      [] hint_providers;
  (* Add a template name without a hint as a fallback. *)
  name ← call_get_template_name self kwargs;
  ret (template_names ++ [name]).

End Methods.

#[global] Instance name_provider {World} `{!Django.Engine World}
  : GetTemplateName World t :=
  get_template_name.

End TemplateNameProvider.

(** *** class Renderable(TemplateNameProvider) *)
Module Renderable.

(** [context_object_name] is [None] or a string. *)
Record t : Type := {
  base : TemplateNameProvider.t;
  context_object_name : option string
}.

Definition get_context_object_name (self : t) : string :=
  match context_object_name self with
  | Some name => if truthy (PyStr name) then name
                 else TemplateNameProvider.get_model_name (base self)
  | None => TemplateNameProvider.get_model_name (base self)
  end.

Section Methods.
Context {World : Type}.

Definition get_context_data (self : t) (kwargs : kwdict) : M World dict :=
  ret (<[PyStr "object" := TemplateNameProvider.as_value (base self)]>
         (<[PyStr (get_context_object_name self) :=
              TemplateNameProvider.as_value (base self)]> ∅)).

End Methods.

(** A renderable inherits [get_template_name]. *)
#[global] Instance renderable_name_provider {World} `{!Django.Engine World}
  : GetTemplateName World t :=
  λ self, TemplateNameProvider.get_template_name (base self).

End Renderable.

(* ===================================================================== *)
(** ** Concrete objects *)
(* ===================================================================== *)

(** A model instance and three hint providers, subclasses of
    [TemplateHintProvider] that override [get_template_hints] and
    [suggest_context_data] and inherit [suggest_template_names]. *)
Module Demo.

Definition post : TemplateNameProvider.t := {|
  TemplateNameProvider._meta :=
    {| TemplateNameProvider.app_label := "Blog";
       TemplateNameProvider.object_name := "Post" |};
  TemplateNameProvider.self_template_name := TemplateNameProvider.template_name;
  TemplateNameProvider.self_id := 1;
  TemplateNameProvider.self_text := "First post"
|}.

Definition page : Renderable.t := {|
  Renderable.base := post;
  Renderable.context_object_name := Some "entry"
|}.

(** These objects use patterns of the fragment only; the engine they run
    on refuses every other pattern. *)
Definition refusing_engine {World : Type} : Django.Engine World :=
  λ _ _, raise TemplateSyntaxError.

#[global] Instance engine_unit : Django.Engine unit := refusing_engine.
#[global] Instance engine_nat : Django.Engine nat := refusing_engine.

Inductive provider : Type := Gallery | Teaser | Plain.

Definition hints (p : provider) : list pyval :=
  match p with
  | Gallery => [PyStr "fancy"; PyStr ""; PyNone; PyStr "lame"]
  | Teaser => [PyStr "wide"]
  | Plain => []
  end.

Definition data (p : provider) : dict :=
  match p with
  | Gallery => <[PyStr "gallery" := PyStr "summer"]> (<[PyStr "title" := PyStr "Gallery"]> ∅)
  | Teaser => <[PyStr "title" := PyStr "Teaser"]> ∅
  | Plain => ∅
  end.

Section Instances.
Context {World : Type} `{!Django.Engine World}.

#[global] Instance get_template_hints : GetTemplateHints World TemplateNameProvider.t provider :=
  λ self _ _, ret (hints self).

#[global] Instance suggest_context_data
  : SuggestContextData World TemplateNameProvider.t provider :=
  λ self _ _, ret (data self).

(** The inherited method, called with [name_provider] and
    [hint_providers] already bound. *)
#[global] Instance suggest_template_names
  : SuggestTemplateNames World TemplateNameProvider.t provider :=
  λ self name_provider hint_providers keywords,
    kwargs ← lift (bind_keywords ["self"; "name_provider"; "hint_providers"] keywords);
    TemplateHintProvider.suggest_template_names self name_provider hint_providers kwargs.

End Instances.

End Demo.

(** A second model instance, and hint providers one of which fails. *)
Module Samples.

Definition article : TemplateNameProvider.t := {|
  TemplateNameProvider._meta :=
    {| TemplateNameProvider.app_label := "News";
       TemplateNameProvider.object_name := "Post" |};
  TemplateNameProvider.self_template_name := TemplateNameProvider.template_name;
  TemplateNameProvider.self_id := 1;
  TemplateNameProvider.self_text := "First post"
|}.

Inductive provider : Type := Sound | Broken.

Section Instances.
Context {World : Type} `{!Django.Engine World}.

#[global] Instance get_template_hints : GetTemplateHints World TemplateNameProvider.t provider :=
  λ self _ _,
    match self with
    | Sound => ret [PyStr "wide"]
    | Broken => raise (OtherError "LookupError")
    end.

#[global] Instance suggest_context_data
  : SuggestContextData World TemplateNameProvider.t provider :=
  λ self _ _,
    match self with
    | Sound => ret (<[PyStr "title" := PyStr "Sound"]> ∅)
    | Broken => raise (OtherError "LookupError")
    end.

#[global] Instance suggest_template_names
  : SuggestTemplateNames World TemplateNameProvider.t provider :=
  λ self name_provider hint_providers keywords,
    kwargs ← lift (bind_keywords ["self"; "name_provider"; "hint_providers"] keywords);
    TemplateHintProvider.suggest_template_names self name_provider hint_providers kwargs.

End Instances.

End Samples.

(** A hint provider that counts the calls of its [get_template_hints] in
    the state of the program and lets the count show in the hint it
    returns. *)
Module Counting.

Inductive provider : Type := Counter.

Definition count_and_hint : M nat (list pyval) :=
  λ calls, (Ok [PyStr (if Nat.even calls then "even" else "odd")], S calls).

#[global] Instance get_template_hints : GetTemplateHints nat TemplateNameProvider.t provider :=
  λ _ _ _, count_and_hint.

#[global] Instance suggest_context_data
  : SuggestContextData nat TemplateNameProvider.t provider :=
  λ _ _ _, ret ∅.

#[global] Instance suggest_template_names
  : SuggestTemplateNames nat TemplateNameProvider.t provider :=
  λ self name_provider hint_providers keywords,
    kwargs ← lift (bind_keywords ["self"; "name_provider"; "hint_providers"] keywords);
    TemplateHintProvider.suggest_template_names self name_provider hint_providers kwargs.

End Counting.

(** The providers of [Demo], which inherit [suggest_template_names], beside
    a provider that overrides it: it has no hints and suggests a name of
    its own. *)
Module Overriding.

Inductive provider : Type := Inherits (p : Demo.provider) | Odd.

Section Instances.
Context {World : Type} `{!Django.Engine World}.

#[global] Instance get_template_hints : GetTemplateHints World TemplateNameProvider.t provider :=
  λ self _ _,
    match self with
    | Inherits p => ret (Demo.hints p)
    | Odd => ret []
    end.

#[global] Instance suggest_context_data
  : SuggestContextData World TemplateNameProvider.t provider :=
  λ _ _ _, ret ∅.

#[global] Instance suggest_template_names
  : SuggestTemplateNames World TemplateNameProvider.t provider :=
  λ self name_provider hint_providers keywords,
    match self with
    | Inherits _ =>
        kwargs ← lift (bind_keywords ["self"; "name_provider"; "hint_providers"] keywords);
        TemplateHintProvider.suggest_template_names
          self name_provider hint_providers kwargs
    | Odd => ret ["odd.html"]
    end.

End Instances.

End Overriding.

(* ===================================================================== *)
(** ** Vocabulary of the properties *)
(* ===================================================================== *)

Section Vocabulary.
Context {World : Type}.

(** The call [m], started in state [w], returns [a] and leaves [w']. *)
Definition returns {A} (m : M World A) (w : World) (a : A) (w' : World) : Prop :=
  m w = (Ok a, w').

(** The call [m], started in state [w], raises [e] and leaves [w']. *)
Definition raises {A} (m : M World A) (w : World) (e : exn) (w' : World) : Prop :=
  m w = (Raise e, w').

(** The call leaves every state as it found it. *)
Definition effect_free {A} (m : M World A) : Prop := ∀ w, (m w).2 = w.



(** No call of [m] raises [e]. *)
Definition never_raises {A} (e : exn) (m : M World A) : Prop :=
  ∀ w w', ¬ raises m w e w'.

(** The call [name_provider.get_template_name(hint=hint, **kwargs)]. *)
Definition hinted_name {N} `{!GetTemplateName World N}
    (name_provider : N) (kwargs : kwdict) (hint : pyval) : M World string :=
  keywords ← lift (with_keyword "hint" hint kwargs);
  call_get_template_name name_provider keywords.

End Vocabulary.

(** The list a composite walks: its argument, or itself when the argument
    is [None]. *)
Definition provider_list {P} (self : list P) (hint_providers : option (list P)) : list P :=
  match hint_providers with None => self | Some l => l end.

(** The positions, counted from [i], of the elements of [l] that pass
    [keep]. *)
Fixpoint positions {A} (keep : A → bool) (l : list A) (i : nat) : list nat :=
  match l with
  | [] => []
  | x :: l' => if keep x then i :: positions keep l' (S i) else positions keep l' (S i)
  end.

Definition keys_are_strings (d : dict) : Prop := ∀ k, k ∈ dom d → is_str k.

(** No character of [s] is changed by [Django.escape]. *)
Definition html_plain (s : string) : bool :=
  forallb (λ c, bool_decide (Django.escape_char c = String c EmptyString))
          (list_ascii_of_string s).

(** The call uses the class attribute [template_name] as its pattern: the
    object has not replaced the attribute and the call passes no pattern
    of its own. *)
Definition default_pattern (obj : TemplateNameProvider.t) (keywords : kwdict) : Prop :=
  TemplateNameProvider.self_template_name obj = TemplateNameProvider.template_name
  ∧ (keywords !! "template_name" = None ∨ keywords !! "template_name" = Some PyNone).

(** A call with the default pattern that leaves [app_label] and
    [object_name] to the object and passes no hint. *)
Definition plain_call (obj : TemplateNameProvider.t) (keywords : kwdict) : Prop :=
  default_pattern obj keywords
  ∧ keywords !! "app_label" = None
  ∧ keywords !! "object_name" = None
  ∧ keywords !! "hint" = None.

(** The underscore the default pattern puts before the model name of a
    partial. *)
Definition partial_mark (keywords : kwdict) : string :=
  if truthy (default PyNone (keywords !! "partial")) then "_" else "".

(** The context [get_template_name] renders its pattern in. *)
Definition name_context (obj : TemplateNameProvider.t) (keywords : kwdict) : kwdict :=
  Django.Context
    (update
       (<["app_label" := PyStr (TemplateNameProvider.get_app_label obj)]>
          (<["object_name" := PyStr (TemplateNameProvider.get_model_name obj)]>
             (<["object" := TemplateNameProvider.as_value obj]> ∅)))
       (delete "template_name" keywords)).

(** An upper-case letter [A]..[Z]. *)
Definition is_upper (c : ascii) : bool :=
  (65 <=? nat_of_ascii c) && (nat_of_ascii c <=? 90).

(** No character of [s] is an upper-case letter. *)
Definition lower_case (s : string) : Prop :=
  forallb (λ c, negb (is_upper c)) (list_ascii_of_string s) = true.

(** A pattern without an opening brace: it holds no tag. *)
Definition no_brace (s : string) : Prop :=
  forallb (λ c, negb (bool_decide (c = "{"%char))) (list_ascii_of_string s) = true.

(** The nodes [Template] compiles the class attribute [template_name] to:
    those before the hint, and the rest. *)
Definition stem_nodes : list Django.node :=
  [ Django.VariableNode "app_label";
    Django.TextNode "/";
    Django.IfNode
      (Django.COr (Django.CVar "partial")
                  (Django.CEq (Django.CVar "type") (Django.CLit (PyStr "partial"))))
      [Django.TextNode "_"] [];
    Django.VariableNode "object_name";
    Django.IfNode
      (Django.CNe (Django.CVar "type") (Django.CLit (PyStr "partial")))
      [Django.TextNode "_"; Django.VariableNode "type"] [] ].

Definition hint_nodes : list Django.node :=
  [ Django.IfNode (Django.CVar "hint")
      [Django.TextNode "_"; Django.VariableNode "hint"] [];
    Django.TextNode ".html" ].

(** The nodes [Template] compiles the class attribute [template_name] to. *)
Definition template_name_nodes : list Django.node :=
  [ Django.VariableNode "app_label";
    Django.TextNode "/";
    Django.IfNode
      (Django.COr (Django.CVar "partial")
                  (Django.CEq (Django.CVar "type") (Django.CLit (PyStr "partial"))))
      [Django.TextNode "_"] [];
    Django.VariableNode "object_name";
    Django.IfNode
      (Django.CNe (Django.CVar "type") (Django.CLit (PyStr "partial")))
      [Django.TextNode "_"; Django.VariableNode "type"] [];
    Django.IfNode (Django.CVar "hint")
      [Django.TextNode "_"; Django.VariableNode "hint"] [];
    Django.TextNode ".html" ].

(* ===================================================================== *)
(** ** Calls and loops *)
(* ===================================================================== *)

Ltac unfold_M :=
  unfold returns, raises, never_raises, hinted_name, mbind, M_bind, bind, mret, M_ret, ret,
    lift, raise in *.

Section LoopLemmas.
Context {World : Type}.
Implicit Types w : World.

(** A loop that calls [f] on every element and folds the results into its
    accumulator makes the calls of [each f l], then folds. *)
Lemma for_each_collect {A S R} (f : A → M World R) (g : S → R → S) acc (l : list A) w :
  for_each (λ acc x, r ← f x; ret (g acc r)) acc l w
  = (rs ← each f l; ret (foldl g acc rs)) w.
Proof.
  revert acc w. induction l as [|x l IH]; intros acc w; simpl.
  - reflexivity.
  - unfold_M. destruct (f x w) as [[r|e] w1]; [|reflexivity].
    specialize (IH (g acc r) w1). unfold_M. rewrite IH.
    destruct (each f l w1) as [[rs|e] w2]; reflexivity.
Qed.

Lemma foldl_app_concat {B} (acc : list B) (rs : list (list B)) :
  foldl (λ a r, a ++ r) acc rs = acc ++ concat rs.
Proof.
  revert acc. induction rs as [|r rs IH]; intros acc; simpl.
  - by rewrite app_nil_r.
  - by rewrite IH, app_assoc.
Qed.

(** The special case of a loop that extends a list. *)
Lemma for_each_extend {A B} (f : A → M World (list B)) acc (l : list A) w :
  for_each (λ acc x, r ← f x; ret (acc ++ r)) acc l w
  = (rs ← each f l; ret (acc ++ concat rs)) w.
Proof.
  rewrite (for_each_collect f (λ a r, a ++ r)).
  unfold_M. destruct (each f l w) as [[rs|e] w1]; [|reflexivity].
  by rewrite foldl_app_concat.
Qed.

(** A loop that calls [f] on the elements that pass [keep] and appends each
    result makes the calls of [each f] on the filtered list. *)
Lemma for_each_append_if {A B} (keep : A → bool) (f : A → M World B) acc (l : list A) w :
  for_each (λ acc x, if keep x then y ← f x; ret (acc ++ [y]) else ret acc) acc l w
  = (ys ← each f (filter (λ x, keep x) l); ret (acc ++ ys)) w.
Proof.
  revert acc w. induction l as [|x l IH]; intros acc w; simpl.
  - unfold_M. by rewrite app_nil_r.
  - rewrite filter_cons. destruct (keep x) eqn:Hk.
    + rewrite decide_True by done. simpl. unfold_M.
      destruct (f x w) as [[y|e] w1]; [|reflexivity].
      specialize (IH (acc ++ [y]) w1). unfold_M. rewrite IH.
      destruct (each f _ w1) as [[ys|e] w2]; [|reflexivity].
      by rewrite <- app_assoc.
    + rewrite decide_False by (by intros H). apply IH.
Qed.

(** What [each] returns pairs off with its arguments. *)
Lemma each_returns_Forall2 {A B} (f : A → M World B) (l : list A) w ys w' :
  each f l w = (Ok ys, w') →
  Forall2 (λ x y, ∃ wa wb, f x wa = (Ok y, wb)) l ys.
Proof.
  revert w ys w'. induction l as [|x l IH]; intros w ys w'; simpl; unfold_M.
  - intros [= <- _]. constructor.
  - destruct (f x w) as [[y|e] w1] eqn:Hx; [|done].
    destruct (each f l w1) as [[ys'|e] w2] eqn:Hl; [|done].
    intros [= <- <-]. constructor; [by exists w, w1 | by eapply IH].
Qed.

(** [each] returns when every call returns. *)
Lemma each_total {A B} (f : A → M World B) (l : list A) w :
  (∀ x w, x ∈ l → ∃ y w', f x w = (Ok y, w')) →
  ∃ ys w', each f l w = (Ok ys, w').
Proof.
  revert w. induction l as [|x l IH]; intros w Hf; simpl; unfold_M.
  - eauto.
  - destruct (Hf x w) as (y & w1 & ->); [left|].
    destruct (IH w1) as (ys & w2 & Hys); [intros; apply Hf; by right|].
    unfold_M. rewrite Hys. eauto.
Qed.

(** An exception of [each] is the exception of one of its calls. *)
Lemma each_raises {A B} (f : A → M World B) (l : list A) w e w' :
  each f l w = (Raise e, w') →
  ∃ x wa, x ∈ l ∧ f x wa = (Raise e, w').
Proof.
  revert w. induction l as [|x l IH]; intros w; simpl; unfold_M.
  - done.
  - destruct (f x w) as [[y|e1] w1] eqn:Hx.
    + destruct (each f l w1) as [[ys'|e2] w2] eqn:Hl; [done|].
      intros [= <- <-]. destruct (IH _ Hl) as (x' & wa & ? & ?).
      exists x', wa. split; [by right|done].
    + intros [= <- <-]. exists x, w. split; [left|done].
Qed.

(** [each] keeps the state when its calls do. *)
Lemma each_effect_free {A B} (f : A → M World B) (l : list A) :
  (∀ x, x ∈ l → effect_free (f x)) → effect_free (each f l).
Proof.
  induction l as [|x l IH]; intros Hf w; simpl; unfold_M.
  - done.
  - pose proof (Hf x ltac:(left) w) as Hx.
    destruct (f x w) as [[y|e] w1]; simpl in Hx; subst w1; [|done].
    pose proof (IH ltac:(intros; apply Hf; by right) w) as Hl.
    destruct (each f l w) as [[ys|e] w2]; simpl in Hl; by subst w2.
Qed.

End LoopLemmas.

Section MoreLoopLemmas.
Context {World : Type}.

Lemma for_each_ext {A S} (b1 b2 : S → A → M World S) acc (l : list A) (w : World) :
  (∀ acc x w, b1 acc x w = b2 acc x w) →
  for_each b1 acc l w = for_each b2 acc l w.
Proof.
  intros Hb. revert acc w. induction l as [|x l IH]; intros acc w; simpl.
  - reflexivity.
  - unfold_M. rewrite Hb. destruct (b2 acc x w) as [[a|e] w1]; [apply IH|reflexivity].
Qed.

End MoreLoopLemmas.

(* ===================================================================== *)
(** ** Dictionaries built by repeated [update] *)
(* ===================================================================== *)

Section Dicts.
Context {K : Type} `{Countable K} {V : Type}.
Implicit Types d : gmap K V.
Implicit Types ds : list (gmap K V).

Lemma dom_foldl_update d ds :
  dom (foldl update d ds) = dom d ∪ ⋃ (dom <$> ds).
Proof.
  revert d. induction ds as [|d0 ds IH]; intros d; simpl.
  - by rewrite (right_id_L ∅ (∪)).
  - rewrite IH. unfold update. rewrite dom_union_L.
    by rewrite (comm_L (∪) (dom d0)), (assoc_L (∪)).
Qed.

Lemma lookup_foldl_update_None d ds k :
  (∀ j dj, ds !! j = Some dj → dj !! k = None) →
  foldl update d ds !! k = d !! k.
Proof.
  revert d. induction ds as [|d0 ds IH]; intros d Hno; simpl.
  - reflexivity.
  - rewrite IH.
    + unfold update. rewrite lookup_union_r; [done|]. by apply (Hno 0).
    + intros j dj Hj. by apply (Hno (S j)).
Qed.

(** The entry of the last dictionary that has the key wins. *)
Lemma lookup_foldl_update_last d ds k i di v :
  ds !! i = Some di → di !! k = Some v →
  (∀ j dj, i < j → ds !! j = Some dj → dj !! k = None) →
  foldl update d ds !! k = Some v.
Proof.
  revert d i. induction ds as [|d0 ds IH]; intros d i Hi Hk Hlater; [done|].
  destruct i as [|i]; simpl in *.
  - injection Hi as ->.
    rewrite lookup_foldl_update_None.
    + unfold update. by apply lookup_union_Some_l.
    + intros j dj Hj. apply (Hlater (S j)); [lia|done].
  - apply (IH _ i); [done..|].
    intros j dj Hij Hj. apply (Hlater (S j)); [lia|done].
Qed.

End Dicts.

Lemma keys_are_strings_foldl_update (d : dict) (ds : list dict) :
  keys_are_strings d → Forall keys_are_strings ds →
  keys_are_strings (foldl update d ds).
Proof.
  intros Hd Hds k. rewrite dom_foldl_update, elem_of_union, elem_of_union_list.
  intros [Hk | (X & HX & Hk)]; [by apply Hd|].
  apply list_elem_of_fmap in HX as (d' & -> & Hd').
  rewrite Forall_forall in Hds. by apply (Hds d').
Qed.

(* ===================================================================== *)
(** ** The methods as sequences of calls *)
(* ===================================================================== *)

Section MethodEquations.
Context {World N P : Type}.
Context `{!GetTemplateName World N} `{!GetTemplateHints World N P}
  `{!SuggestContextData World N P} `{!SuggestTemplateNames World N P}.
Implicit Types (w : World) (self : P) (name_provider : N) (kwargs : kwdict).

(** [TemplateHintProvider.suggest_template_names] asks for the hints, then
    makes one call of [get_template_name] per truthy hint, in order. *)
Lemma hint_provider_names_eq self name_provider (hint_providers : list P) kwargs w :
  TemplateHintProvider.suggest_template_names self name_provider hint_providers kwargs w
  = (hints ← call_get_template_hints self name_provider hint_providers;
     each (hinted_name name_provider kwargs) (filter (λ h, truthy h) hints)) w.
Proof.
  unfold TemplateHintProvider.suggest_template_names. unfold_M.
  destruct (call_get_template_hints self name_provider hint_providers w)
    as [[hints|e] w1]; [|reflexivity].
  rewrite (for_each_ext _
             (λ acc x, if truthy x
                       then y ← hinted_name name_provider kwargs x; ret (acc ++ [y])
                       else ret acc)).
  - rewrite for_each_append_if. unfold_M. simpl.
    by destruct (each _ _ w1) as [[ys|e] w2].
  - intros acc x w'. destruct (truthy x); [|reflexivity].
    unfold_M. destruct (with_keyword "hint" x kwargs); [|reflexivity].
    reflexivity.
Qed.

Lemma composite_hints_eq (self : list P) name_provider hint_providers w :
  CompositeTemplateHintProvider.get_template_hints self name_provider hint_providers w
  = (let l := provider_list self hint_providers in
     rs ← each (λ p, call_get_template_hints p name_provider l) l;
     ret (concat rs)) w.
Proof.
  unfold CompositeTemplateHintProvider.get_template_hints.
  fold (provider_list self hint_providers). cbv zeta.
  by rewrite for_each_extend.
Qed.

Lemma composite_names_eq (self : list P) name_provider hint_providers kwargs w :
  CompositeTemplateHintProvider.suggest_template_names self name_provider
    hint_providers kwargs w
  = (let l := provider_list self hint_providers in
     rs ← each (λ p, call_suggest_template_names p name_provider l kwargs) l;
     ret (concat rs)) w.
Proof.
  unfold CompositeTemplateHintProvider.suggest_template_names.
  fold (provider_list self hint_providers). cbv zeta.
  by rewrite for_each_extend.
Qed.

Lemma composite_context_eq (self : list P) name_provider hint_providers w :
  CompositeTemplateHintProvider.suggest_context_data self name_provider hint_providers w
  = (let l := provider_list self hint_providers in
     ds ← each (λ p, call_suggest_context_data p name_provider l) l;
     ret (foldl update ∅ ds)) w.
Proof.
  unfold CompositeTemplateHintProvider.suggest_context_data.
  fold (provider_list self hint_providers). cbv zeta.
  by rewrite (for_each_collect _ update).
Qed.

Lemma template_names_eq (self : N) (hint_providers : list P) kwargs w :
  TemplateNameProvider.get_template_names self hint_providers kwargs w
  = (rs ← each (λ p, call_suggest_template_names p self hint_providers kwargs)
            hint_providers;
     name ← call_get_template_name self kwargs;
     ret (concat rs ++ [name])) w.
Proof.
  unfold TemplateNameProvider.get_template_names.
  unfold mbind at 1. unfold M_bind at 1. unfold bind at 1.
  rewrite for_each_extend. unfold_M.
  by destruct (each _ hint_providers w) as [[rs|e] w1].
Qed.

End MethodEquations.

(* ===================================================================== *)
(** ** Positions of the elements a filter keeps *)
(* ===================================================================== *)

Section Positions.
Context {A : Type} (keep : A → bool).

Lemma positions_length (l : list A) n :
  length (positions keep l n) = length (filter (λ x, keep x) l).
Proof.
  revert n. induction l as [|x l IH]; intros n; simpl; [done|].
  rewrite filter_cons. destruct (keep x) eqn:Hk.
  - rewrite decide_True by done. simpl. by rewrite IH.
  - rewrite decide_False by (by intros ?). apply IH.
Qed.

Lemma positions_ge (l : list A) n i :
  i ∈ positions keep l n → n ≤ i.
Proof.
  revert n. induction l as [|x l IH]; intros n; simpl.
  - by intros ?%elem_of_nil.
  - destruct (keep x).
    + intros [->|Hi%IH]%elem_of_cons; lia.
    + intros Hi%IH. lia.
Qed.

(** The [k]-th position points at the [k]-th element kept. *)
Lemma positions_lookup (l : list A) n k i :
  positions keep l n !! k = Some i →
  n ≤ i ∧ l !! (i - n) = filter (λ x, keep x) l !! k.
Proof.
  revert n k. induction l as [|x l IH]; intros n k; simpl; [done|].
  rewrite filter_cons. destruct (keep x) eqn:Hk.
  - rewrite decide_True by done. destruct k as [|k]; simpl.
    + intros [= <-]. split; [lia|]. by replace (n - n) with 0 by lia.
    + intros [Hle Hi]%IH. split; [lia|].
      replace (i - n) with (S (i - S n)) by lia. done.
  - rewrite decide_False by (by intros ?).
    intros [Hle Hi]%IH. split; [lia|].
    replace (i - n) with (S (i - S n)) by lia. done.
Qed.

(** Positions grow from one kept element to the next. *)
Lemma positions_increasing (l : list A) n k i j :
  positions keep l n !! k = Some i →
  positions keep l n !! S k = Some j →
  i < j.
Proof.
  revert n k. induction l as [|x l IH]; intros n k; simpl; [done|].
  destruct (keep x); [|apply IH].
  destruct k as [|k]; simpl.
  - intros [= <-] Hj. apply list_elem_of_lookup_2, positions_ge in Hj. lia.
  - apply IH.
Qed.

End Positions.

(* ===================================================================== *)
(** ** Properties of the hint providers *)
(* ===================================================================== *)

Section HintProviderProperties.
Context {World N P : Type}.
Context `{!GetTemplateName World N} `{!GetTemplateHints World N P}
  `{!SuggestContextData World N P} `{!SuggestTemplateNames World N P}.
Implicit Types (w : World) (self : P) (name_provider : N) (kwargs : kwdict).

(** C8: [TemplateHintProvider.suggest_template_names] skips the falsy hints
    of [get_template_hints]: it makes exactly the calls
    [get_template_name(hint=h, **kwargs)] for the truthy hints [h], in hint
    order, and returns their results, one name per truthy hint, so that the
    output is as long as the list of truthy hints and never longer than the
    hint list. *)
Theorem falsy_hints_are_skipped self name_provider (hint_providers : list P) kwargs w :
  TemplateHintProvider.suggest_template_names self name_provider hint_providers kwargs w
  = (hints ← call_get_template_hints self name_provider hint_providers;
     each (hinted_name name_provider kwargs) (filter (λ h, truthy h) hints)) w
  ∧ ∀ hints w1 names w2,
      returns (call_get_template_hints self name_provider hint_providers) w hints w1 →
      returns (TemplateHintProvider.suggest_template_names
                 self name_provider hint_providers kwargs) w names w2 →
      Forall2 (λ hint name,
                 ∃ wa wb, returns (hinted_name name_provider kwargs hint) wa name wb)
              (filter (λ h, truthy h) hints) names
      ∧ length names = length (filter (λ h, truthy h) hints)
      ∧ length names ≤ length hints.
Proof.
  split; [apply hint_provider_names_eq|].
  intros hints w1 names w2 Hh Hn. unfold returns in *.
  rewrite hint_provider_names_eq in Hn.
  unfold mbind, M_bind, bind in Hn. rewrite Hh in Hn.
  apply each_returns_Forall2 in Hn.
  split; [exact Hn|].
  apply Forall2_length in Hn. split; [done|].
  rewrite <- Hn. apply length_filter.
Qed.

(** C1: the names [TemplateHintProvider.suggest_template_names] returns
    follow the order of the hint list: there are positions in the hint
    list, one per name, such that the [k]-th name is what
    [get_template_name(hint=h, **kwargs)] returned for the hint [h] at the
    [k]-th position, and each position lies before the next.  The method
    returns whenever the calls of [get_template_name] do. *)
Theorem hint_order_is_preserved self name_provider (hint_providers : list P) kwargs
    w hints w1 :
  returns (call_get_template_hints self name_provider hint_providers) w hints w1 →
  ((∀ hint w', truthy hint →
      ∃ name w'', returns (hinted_name name_provider kwargs hint) w' name w'') →
   ∃ names w2,
     returns (TemplateHintProvider.suggest_template_names
                self name_provider hint_providers kwargs) w names w2)
  ∧ ∀ names w2,
      returns (TemplateHintProvider.suggest_template_names
                 self name_provider hint_providers kwargs) w names w2 →
      ∃ pos : list nat,
        length pos = length names
        ∧ (∀ k i name,
             pos !! k = Some i → names !! k = Some name →
             ∃ hint, hints !! i = Some hint
                     ∧ ∃ wa wb, returns (hinted_name name_provider kwargs hint) wa name wb)
        ∧ (∀ k i j, pos !! k = Some i → pos !! S k = Some j → i < j).
Proof.
  intros Hh. unfold returns in *. split.
  - intros Htotal. rewrite hint_provider_names_eq.
    unfold mbind, M_bind, bind. rewrite Hh.
    apply each_total. intros x w' [Hx _]%list_elem_of_filter. by apply Htotal.
  - intros names w2 Hn. rewrite hint_provider_names_eq in Hn.
    unfold mbind, M_bind, bind in Hn. rewrite Hh in Hn.
    apply each_returns_Forall2 in Hn.
    exists (positions truthy hints 0). split; [|split].
    + rewrite positions_length. by apply Forall2_length in Hn.
    + intros k i name Hpos Hname.
      apply positions_lookup in Hpos as [_ Hpos].
      replace (i - 0) with i in Hpos by lia.
      destruct (Forall2_lookup_r _ _ _ _ _ Hn Hname) as (hint & Hhint & Hcall).
      exists hint. split; [congruence|exact Hcall].
    + intros k i j. apply positions_increasing.
Qed.

(** C2: when the children's [suggest_context_data] return the dicts [ds],
    in list order, [CompositeTemplateHintProvider.suggest_context_data]
    returns a dict whose key set is the union of the key sets of [ds] and
    which maps every key to the value of the last dict of [ds] that has
    the key. *)
Theorem composite_context_is_union (self : list P) name_provider hint_providers w ds w' :
  returns (each (λ p, call_suggest_context_data p name_provider
                        (provider_list self hint_providers))
                (provider_list self hint_providers)) w ds w' →
  ∃ merged,
    returns (CompositeTemplateHintProvider.suggest_context_data
               self name_provider hint_providers) w merged w'
    ∧ dom merged = ⋃ (dom <$> ds)
    ∧ ∀ k i d v,
        ds !! i = Some d → d !! k = Some v →
        (∀ j d', i < j → ds !! j = Some d' → d' !! k = None) →
        merged !! k = Some v.
Proof.
  unfold returns. intros Hds. exists (foldl update ∅ ds). split; [|split].
  - rewrite composite_context_eq. cbv zeta. unfold mbind, M_bind, bind.
    by rewrite Hds.
  - by rewrite dom_foldl_update, dom_empty_L, (left_id_L ∅ (∪)).
  - intros k i d v. apply lookup_foldl_update_last.
Qed.

(** C10: for each of the three methods of a composite, the default
    [hint_providers=None] is the call with the composite itself as the
    provider list. *)
Theorem composite_none_is_self (c : list P) name_provider kwargs :
  CompositeTemplateHintProvider.get_template_hints c name_provider None
  = CompositeTemplateHintProvider.get_template_hints c name_provider (Some c)
  ∧ CompositeTemplateHintProvider.suggest_context_data c name_provider None
    = CompositeTemplateHintProvider.suggest_context_data c name_provider (Some c)
  ∧ CompositeTemplateHintProvider.suggest_template_names c name_provider None kwargs
    = CompositeTemplateHintProvider.suggest_template_names c name_provider (Some c) kwargs.
Proof. repeat split; reflexivity. Qed.

End HintProviderProperties.

(* ===================================================================== *)
(** ** Effects and exceptions of composed calls *)
(* ===================================================================== *)

Section Composition.
Context {World : Type}.


Lemma effect_free_lift {A} (r : Result A) : effect_free (lift r : M World A).
Proof. by intros w. Qed.

Lemma effect_free_bind {A B} (m : M World A) (k : A → M World B) :
  effect_free m → (∀ a, effect_free (k a)) → effect_free (m ≫= k).
Proof.
  intros Hm Hk w. unfold_M. specialize (Hm w).
  destruct (m w) as [[a|e] w1]; simpl in *; subst w1; [apply Hk|done].
Qed.



Lemma never_raises_ret {A} e (a : A) : never_raises e (ret a : M World A).
Proof. by intros w w'. Qed.

Lemma never_raises_bind {A B} e (m : M World A) (k : A → M World B) :
  never_raises e m → (∀ a, never_raises e (k a)) → never_raises e (m ≫= k).
Proof.
  intros Hm Hk w w'. unfold_M.
  destruct (m w) as [[a|e1] w1] eqn:Hmw; [apply Hk|].
  intros [= -> ->]. by apply (Hm w w').
Qed.

Lemma never_raises_ext {A} e (m1 m2 : M World A) :
  (∀ w, m1 w = m2 w) → never_raises e m2 → never_raises e m1.
Proof. intros Heq H2 w w'. unfold raises. rewrite Heq. apply H2. Qed.

Lemma never_raises_each {A B} e (f : A → M World B) (l : list A) :
  (∀ x, x ∈ l → never_raises e (f x)) → never_raises e (each f l).
Proof.
  intros Hf w w' (x & wa & Hx & Hr)%each_raises. by apply (Hf x Hx wa w').
Qed.

Lemma never_raises_hinted_name {N} `{!GetTemplateName World N}
    (name_provider : N) (kwargs : kwdict) hint e :
  e ≠ TypeError →
  (∀ keywords, never_raises e (call_get_template_name name_provider keywords)) →
  never_raises e (hinted_name name_provider kwargs hint).
Proof.
  intros He Hcall w w'. unfold hinted_name, with_keyword.
  destruct (kwargs !! "hint"); unfold_M.
  - intros [= <- _]. done.
  - apply Hcall.
Qed.

Lemma effect_free_hinted_name {N} `{!GetTemplateName World N}
    (name_provider : N) (kwargs : kwdict) hint :
  (∀ keywords, effect_free (call_get_template_name name_provider keywords)) →
  effect_free (hinted_name name_provider kwargs hint).
Proof.
  intros Hcall. apply effect_free_bind; [apply effect_free_lift|]. intros a. apply Hcall.
Qed.

End Composition.

(* ===================================================================== *)
(** ** The default pattern and the hint *)
(* ===================================================================== *)

Lemma append_assoc (a b c : string) : (a +:+ b) +:+ c = a +:+ (b +:+ c).
Proof.
  induction a as [|x a IH]; [done|].
  change (String x ((a +:+ b) +:+ c) = String x (a +:+ (b +:+ c))). by rewrite IH.
Qed.

Lemma append_empty_r (a : string) : a +:+ EmptyString = a.
Proof.
  induction a as [|x a IH]; [done|].
  change (String x (a +:+ EmptyString) = String x a). by rewrite IH.
Qed.

Lemma render_nodelist_app ctx (l1 l2 : list Django.node) :
  Django.render_nodelist ctx (l1 ++ l2)
  = Django.render_nodelist ctx l1 +:+ Django.render_nodelist ctx l2.
Proof.
  induction l1 as [|n l1 IH]; [done|].
  cbn [Django.render_nodelist app]. by rewrite IH, append_assoc.
Qed.

Lemma template_name_compiles :
  Django.Template TemplateNameProvider.template_name = Some template_name_nodes.
Proof. vm_compute. reflexivity. Qed.

Lemma template_name_nodes_split : template_name_nodes = stem_nodes ++ hint_nodes.
Proof. reflexivity. Qed.

(** The nodes before the hint read four variables only. *)
Lemma render_stem_agree (ctx1 ctx2 : kwdict) :
  ctx1 !! "app_label" = ctx2 !! "app_label" →
  ctx1 !! "partial" = ctx2 !! "partial" →
  ctx1 !! "type" = ctx2 !! "type" →
  ctx1 !! "object_name" = ctx2 !! "object_name" →
  Django.render_nodelist ctx1 stem_nodes = Django.render_nodelist ctx2 stem_nodes.
Proof.
  intros Ha Hp Ht Ho. unfold stem_nodes.
  cbn [Django.render_nodelist Django.render_node Django.eval].
  unfold Django.render_variable. by rewrite Ha, Hp, Ht, Ho.
Qed.

Lemma render_hint_absent (ctx : kwdict) :
  ctx !! "hint" = None → Django.render_nodelist ctx hint_nodes = ".html".
Proof.
  intros Hh. unfold hint_nodes.
  cbn [Django.render_nodelist Django.render_node Django.eval].
  rewrite Hh. reflexivity.
Qed.

Lemma render_hint_present (ctx : kwdict) h :
  ctx !! "hint" = Some (PyStr h) → h ≠ "" →
  Django.render_nodelist ctx hint_nodes = "_" +:+ Django.escape h +:+ ".html".
Proof.
  intros Hh Hne. unfold hint_nodes.
  cbn [Django.render_nodelist Django.render_node Django.eval].
  unfold Django.render_variable. rewrite Hh.
  change (truthy (default PyNone (Some (PyStr h)))) with (negb (String.eqb h "")).
  destruct (String.eqb_spec h ""); [done|]. cbn [negb str].
  by rewrite !append_empty_r, append_assoc.
Qed.

Lemma escape_plain h : html_plain h → Django.escape h = h.
Proof.
  unfold html_plain. induction h as [|c h IH]; simpl; [done|].
  intros [Hc Hh]%andb_prop_elim. apply bool_decide_unpack in Hc.
  rewrite Hc. simpl. by rewrite IH.
Qed.

Section DefaultPattern.
Context {World : Type} `{!Django.Engine World}.
Implicit Types (w : World) (obj : TemplateNameProvider.t) (keywords kwargs : kwdict).

(** With the default pattern, [get_template_name] returns the rendering of
    the compiled class attribute. *)
Lemma default_name_value obj keywords w :
  default_pattern obj keywords →
  TemplateNameProvider.get_template_name obj keywords w
  = (Ok (Django.render template_name_nodes (name_context obj keywords)), w).
Proof.
  intros [Hattr Harg]. unfold TemplateNameProvider.get_template_name.
  assert (str match keywords !! "template_name" with
              | Some PyNone | None => PyStr (TemplateNameProvider.self_template_name obj)
              | Some v => v
              end = TemplateNameProvider.template_name) as ->.
  { destruct Harg as [-> | ->]; simpl; exact Hattr. }
  by rewrite template_name_compiles.
Qed.

Lemma name_context_lookup_other obj kwargs hint name :
  name ≠ "hint" →
  name_context obj (<["hint" := hint]> kwargs) !! name = name_context obj kwargs !! name.
Proof.
  intros Hne. unfold name_context, Django.Context, update.
  rewrite !lookup_union. f_equal. f_equal.
  destruct (decide (name = "template_name")) as [->|Hn].
  - by rewrite !lookup_delete_eq.
  - rewrite !lookup_delete_ne by done. by rewrite lookup_insert_ne.
Qed.

Lemma name_context_lookup_hint obj kwargs hint :
  name_context obj (<["hint" := hint]> kwargs) !! "hint" = Some hint.
Proof.
  unfold name_context, Django.Context, update.
  apply lookup_union_Some_l, lookup_union_Some_l.
  rewrite lookup_delete_ne by done. apply lookup_insert_eq.
Qed.

Lemma name_context_lookup_no_hint obj kwargs :
  kwargs !! "hint" = None → name_context obj kwargs !! "hint" = None.
Proof.
  intros Hh. unfold name_context, Django.Context, update.
  rewrite !lookup_union, lookup_delete_ne, Hh by done.
  rewrite !lookup_insert_ne, lookup_empty by done. reflexivity.
Qed.

(** Under the default pattern, a non-empty hint string [h] adds ["_"]
    followed by the HTML-escaped [h] right before [".html"], and changes
    nothing else; the escaped [h] is [h] itself when [h] has none of the
    characters HTML reserves. *)
Lemma hint_is_an_escaped_suffix obj kwargs h w :
  default_pattern obj kwargs →
  kwargs !! "hint" = None →
  h ≠ "" →
  ∃ stem,
    returns (TemplateNameProvider.get_template_name obj kwargs) w (stem +:+ ".html") w
    ∧ returns (TemplateNameProvider.get_template_name obj (<["hint" := PyStr h]> kwargs))
              w (stem +:+ "_" +:+ Django.escape h +:+ ".html") w
    ∧ (html_plain h →
       returns (TemplateNameProvider.get_template_name obj (<["hint" := PyStr h]> kwargs))
               w (stem +:+ "_" +:+ h +:+ ".html") w).
Proof.
  intros Hdef Hnohint Hne.
  assert (default_pattern obj (<["hint" := PyStr h]> kwargs)) as Hdef'.
  { destruct Hdef as [Ha Hb]. split; [done|]. by rewrite lookup_insert_ne. }
  exists (Django.render_nodelist (name_context obj kwargs) stem_nodes).
  unfold returns. rewrite !default_name_value by done.
  unfold Django.render. rewrite template_name_nodes_split, !render_nodelist_app.
  rewrite (render_hint_absent (name_context obj kwargs))
    by by apply name_context_lookup_no_hint.
  rewrite (render_hint_present _ h) by (apply name_context_lookup_hint || done).
  rewrite (render_stem_agree (name_context obj (<["hint" := PyStr h]> kwargs))
                             (name_context obj kwargs))
    by by apply name_context_lookup_other.
  split; [done|]. split; [done|].
  intros Hplain. by rewrite (escape_plain h Hplain).
Qed.

End DefaultPattern.

(* ===================================================================== *)
(** ** Properties of the name providers *)
(* ===================================================================== *)

Section DefaultName.
Context {World : Type} `{!Django.Engine World}.


(** For any pattern it has none when the engine has none outside the
    fragment. *)
Lemma name_effect_free (obj : TemplateNameProvider.t) keywords :
  (∀ s ctx, effect_free (Django.render_outside s ctx : M World string)) →
  effect_free (TemplateNameProvider.get_template_name obj keywords : M World string).
Proof.
  intros Hengine w. unfold TemplateNameProvider.get_template_name.
  destruct (Django.Template _); [done|apply Hengine].
Qed.

Lemma default_name_never_not_found (obj : TemplateNameProvider.t) keywords :
  default_pattern obj keywords →
  never_raises TemplateDoesNotExist
    (TemplateNameProvider.get_template_name obj keywords : M World string).
Proof. intros Hdef w w'. unfold raises. by rewrite default_name_value. Qed.

End DefaultName.

Section NameProviderProperties.
Context {World N P : Type} `{!Django.Engine World}.
Context `{!GetTemplateName World N} `{!GetTemplateHints World N P}
  `{!SuggestContextData World N P} `{!SuggestTemplateNames World N P}.
Implicit Types (w : World) (self : N) (hint_providers : list P) (kwargs : kwdict).

(** C3, amended: [TemplateNameProvider.get_template_names] is the
    concatenation, in provider order, of what each provider's
    [suggest_template_names] returns, followed by the one name that
    [get_template_name] with the keywords [kwargs] returns;
    [CompositeTemplateHintProvider.suggest_template_names] is the
    concatenation, in list order, of what [suggest_template_names] of the
    providers of the list it walks returns (its [hint_providers] argument,
    or its own members for [None]); and what a provider that inherits
    [TemplateHintProvider.suggest_template_names] returns is built from
    that provider's collected hints: the names of its truthy hints, in
    order. *)
Theorem names_are_concatenated self hint_providers kwargs w :
  TemplateNameProvider.get_template_names self hint_providers kwargs w
  = (rs ← each (λ p, call_suggest_template_names p self hint_providers kwargs)
            hint_providers;
     name ← call_get_template_name self kwargs;
     ret (concat rs ++ [name])) w
  ∧ (∀ (c : list P) (arg : option (list P)),
       CompositeTemplateHintProvider.suggest_template_names c self arg kwargs w
       = (rs ← each (λ p, call_suggest_template_names p self (provider_list c arg) kwargs)
                 (provider_list c arg);
          ret (concat rs)) w)
  ∧ ∀ (p : P) (l : list P),
      (∀ w', call_suggest_template_names p self l kwargs w'
             = TemplateHintProvider.suggest_template_names p self l kwargs w') →
      call_suggest_template_names p self l kwargs w
      = (hints ← call_get_template_hints p self l;
         each (hinted_name self kwargs) (filter (λ h, truthy h) hints)) w.
Proof.
  split; [apply template_names_eq|]. split.
  - intros c arg. apply composite_names_eq.
  - intros p l Hinherits. rewrite Hinherits. apply hint_provider_names_eq.
Qed.


(** C4: [get_template_names] returns every candidate: all the names of
    the providers and the fallback, whatever templates exist.  None of the
    methods of the module raises [TemplateDoesNotExist] when the methods
    they call do not, and the module's own [get_template_name] never does
    under the default pattern.
    [get_template_names] handles no exception: one raised by a provider or
    by [get_template_name] ends it. *)
Theorem not_found_is_left_to_the_loader self hint_providers kwargs w :
  (∀ rs w1 name w2,
     returns (each (λ p, call_suggest_template_names p self hint_providers kwargs)
                   hint_providers) w rs w1 →
     returns (call_get_template_name self kwargs) w1 name w2 →
     returns (TemplateNameProvider.get_template_names self hint_providers kwargs)
             w (concat rs ++ [name]) w2)
  ∧ ((∀ (p : P) n l, never_raises TemplateDoesNotExist (call_get_template_hints p n l)) →
     (∀ (p : P) n l, never_raises TemplateDoesNotExist (call_suggest_context_data p n l)) →
     (∀ (p : P) n l kw,
        never_raises TemplateDoesNotExist (call_suggest_template_names p n l kw)) →
     (∀ (n : N) kw, never_raises TemplateDoesNotExist (call_get_template_name n kw)) →
     ∀ (p : P) (c : list P) (arg : option (list P)),
       never_raises TemplateDoesNotExist
         (TemplateNameProvider.get_template_names self hint_providers kwargs)
       ∧ never_raises TemplateDoesNotExist
           (TemplateHintProvider.suggest_template_names p self hint_providers kwargs)
       ∧ never_raises TemplateDoesNotExist
           (CompositeTemplateHintProvider.get_template_hints c self arg)
       ∧ never_raises TemplateDoesNotExist
           (CompositeTemplateHintProvider.suggest_context_data c self arg)
       ∧ never_raises TemplateDoesNotExist
           (CompositeTemplateHintProvider.suggest_template_names c self arg kwargs))
  ∧ (∀ (obj : TemplateNameProvider.t) keywords,
       default_pattern obj keywords →
       never_raises TemplateDoesNotExist
         (TemplateNameProvider.get_template_name obj keywords : M World string))
  ∧ (∀ e w',
       raises (each (λ p, call_suggest_template_names p self hint_providers kwargs)
                    hint_providers) w e w' →
       raises (TemplateNameProvider.get_template_names self hint_providers kwargs) w e w')
  ∧ (∀ rs w1 e w2,
       returns (each (λ p, call_suggest_template_names p self hint_providers kwargs)
                     hint_providers) w rs w1 →
       raises (call_get_template_name self kwargs) w1 e w2 →
       raises (TemplateNameProvider.get_template_names self hint_providers kwargs) w e w2).
Proof.
  split; [|split; [|split; [|split]]].
  - intros rs w1 name w2 Hrs Hname. unfold returns in *.
    rewrite template_names_eq. unfold_M. by rewrite Hrs, Hname.
  - intros Hh Hc Hn Hg p c arg. repeat split.
    + eapply never_raises_ext; [apply template_names_eq|].
      apply never_raises_bind; [by apply never_raises_each|]. intros rs.
      apply never_raises_bind; [apply Hg|]. intros name. apply never_raises_ret.
    + eapply never_raises_ext; [apply hint_provider_names_eq|].
      apply never_raises_bind; [apply Hh|]. intros hints.
      apply never_raises_each. intros hint _. by apply never_raises_hinted_name.
    + eapply never_raises_ext; [apply composite_hints_eq|]. cbv zeta.
      apply never_raises_bind; [by apply never_raises_each|]. intros rs.
      apply never_raises_ret.
    + eapply never_raises_ext; [apply composite_context_eq|]. cbv zeta.
      apply never_raises_bind; [by apply never_raises_each|]. intros rs.
      apply never_raises_ret.
    + eapply never_raises_ext; [apply composite_names_eq|]. cbv zeta.
      apply never_raises_bind; [by apply never_raises_each|]. intros rs.
      apply never_raises_ret.
  - apply default_name_never_not_found.
  - intros e w' He. unfold raises in *. rewrite template_names_eq. unfold_M.
    by rewrite He.
  - intros rs w1 e w2 Hrs He. unfold returns, raises in *.
    rewrite template_names_eq. unfold_M. by rewrite Hrs, He.
Qed.

End NameProviderProperties.

(* ===================================================================== *)
(** ** Context mappings and side effects *)
(* ===================================================================== *)

Section ContextAndEffects.
Context {World N P : Type} `{!Django.Engine World}.
Context `{!GetTemplateName World N} `{!GetTemplateHints World N P}
  `{!SuggestContextData World N P} `{!SuggestTemplateNames World N P}.
Implicit Types (w : World) (name_provider : N) (kwargs : kwdict).


(** C6: the dicts of [Renderable.get_context_data] and of
    [TemplateHintProvider.suggest_context_data] have string keys only, and
    so has the dict of [CompositeTemplateHintProvider.suggest_context_data]
    when the dicts its children return have; each of the three returns. *)
Theorem context_keys_are_strings :
  (∀ (page : Renderable.t) kwargs w,
     ∃ d, returns (Renderable.get_context_data page kwargs) w d w
          ∧ keys_are_strings d)
  ∧ (∀ (self : P) name_provider (hint_providers : list P) w,
       ∃ d, returns (TemplateHintProvider.suggest_context_data
                       self name_provider hint_providers) w d w
            ∧ keys_are_strings d)
  ∧ (∀ (c : list P) name_provider (arg : option (list P)) w ds w',
       returns (each (λ p, call_suggest_context_data p name_provider
                             (provider_list c arg))
                     (provider_list c arg)) w ds w' →
       Forall keys_are_strings ds →
       ∃ d, returns (CompositeTemplateHintProvider.suggest_context_data
                       c name_provider arg) w d w'
            ∧ keys_are_strings d).
Proof.
  split; [|split].
  - intros page kwargs w. eexists. split; [reflexivity|].
    intros k. rewrite !dom_insert_L, dom_empty_L.
    rewrite !elem_of_union, !elem_of_singleton, elem_of_empty.
    intros [->|[->|[]]]; exact I.
  - intros self name_provider hint_providers w. exists ∅. split; [reflexivity|].
    intros k. rewrite dom_empty_L. by intros ?%elem_of_empty.
  - intros c name_provider arg w ds w' Hds Hkeys. unfold returns in *.
    exists (foldl update ∅ ds). split.
    + rewrite composite_context_eq. cbv zeta. unfold_M. by rewrite Hds.
    + apply keys_are_strings_foldl_update; [|done].
      intros k. rewrite dom_empty_L. by intros ?%elem_of_empty.
Qed.



End ContextAndEffects.


(* ===================================================================== *)
(** ** The properties on the concrete objects *)
(* ===================================================================== *)

Section DemoEffects.
Context {World : Type} `{!Django.Engine World}.
Hypothesis engine_effect_free :
  ∀ s ctx, effect_free (Django.render_outside s ctx : M World string).

Lemma demo_hints_effect_free (p : Demo.provider) (n : TemplateNameProvider.t) l :
  effect_free (call_get_template_hints p n l : M World (list pyval)).
Proof. by intros w. Qed.


Lemma demo_name_effect_free (n : TemplateNameProvider.t) kw :
  effect_free (call_get_template_name n kw : M World string).
Proof. by apply name_effect_free. Qed.


End DemoEffects.

Lemma refusing_engine_effect_free {World : Type} s ctx :
  effect_free (Demo.refusing_engine s ctx : M World string).
Proof. by intros w. Qed.

(** C3, as stated, fails on the providers [Gallery], which inherits
    [suggest_template_names], and [Odd], which overrides it.  The
    concatenation of the suggested names has three names and
    [get_template_names] returns four, the last being the name
    [get_template_name] returns for the keywords alone.  The name [Odd]
    suggests is built from no hint: it has none.  And a composite called
    with a list of providers returns the names of that list, not of its
    own members. *)
Lemma names_are_not_only_concatenated :
  TemplateNameProvider.get_template_names
    Demo.post [Overriding.Inherits Demo.Gallery; Overriding.Odd] ∅ tt
  = (Ok ["blog/post__fancy.html"; "blog/post__lame.html"; "odd.html";
         "blog/post_.html"], tt)
  ∧ (rs ← each (λ p, call_suggest_template_names
                       p Demo.post [Overriding.Inherits Demo.Gallery; Overriding.Odd] ∅)
             [Overriding.Inherits Demo.Gallery; Overriding.Odd];
     ret (concat rs)) tt
    = (Ok ["blog/post__fancy.html"; "blog/post__lame.html"; "odd.html"], tt)
  ∧ TemplateNameProvider.get_template_names
      Demo.post [Overriding.Inherits Demo.Gallery; Overriding.Odd] ∅ tt
    ≠ (rs ← each (λ p, call_suggest_template_names
                         p Demo.post
                         [Overriding.Inherits Demo.Gallery; Overriding.Odd] ∅)
               [Overriding.Inherits Demo.Gallery; Overriding.Odd];
       ret (concat rs)) tt
  ∧ call_get_template_hints
      Overriding.Odd Demo.post [Overriding.Inherits Demo.Gallery; Overriding.Odd] tt
    = (Ok [], tt)
  ∧ call_suggest_template_names
      Overriding.Odd Demo.post [Overriding.Inherits Demo.Gallery; Overriding.Odd] ∅ tt
    = (Ok ["odd.html"], tt)
  ∧ CompositeTemplateHintProvider.suggest_template_names
      [Overriding.Inherits Demo.Gallery] Demo.post (Some [Overriding.Odd]) ∅ tt
    = (Ok ["odd.html"], tt).
Proof.
  assert (TemplateNameProvider.get_template_names
            Demo.post [Overriding.Inherits Demo.Gallery; Overriding.Odd] ∅ tt
          = (Ok ["blog/post__fancy.html"; "blog/post__lame.html"; "odd.html";
                 "blog/post_.html"], tt)) as H1
    by (vm_compute; reflexivity).
  assert ((rs ← each (λ p, call_suggest_template_names
                             p Demo.post
                             [Overriding.Inherits Demo.Gallery; Overriding.Odd] ∅)
                   [Overriding.Inherits Demo.Gallery; Overriding.Odd];
           ret (concat rs)) tt
          = (Ok ["blog/post__fancy.html"; "blog/post__lame.html"; "odd.html"], tt)) as H2
    by (vm_compute; reflexivity).
  split; [exact H1|]. split; [exact H2|].
  split; [rewrite H1, H2; discriminate|].
  split; [reflexivity|]. split; [reflexivity|]. vm_compute. reflexivity.
Qed.


(** C5 at the hint ["a&b"]: without a hint the name is
    ["blog/post_.html"]; with the hint it is ["blog/post__a&amp;b.html"],
    not ["blog/post__a&b.html"]: the template engine has HTML-escaped the
    hint. *)
Lemma ampersand_hint_is_escaped :
  TemplateNameProvider.get_template_name Demo.post ∅ tt = (Ok "blog/post_.html", tt)
  ∧ TemplateNameProvider.get_template_name Demo.post (<["hint" := PyStr "a&b"]> ∅) tt
    = (Ok "blog/post__a&amp;b.html", tt)
  ∧ TemplateNameProvider.get_template_name Demo.post (<["hint" := PyStr "a&b"]> ∅) tt
    ≠ (Ok ("blog/post_" +:+ "_" +:+ "a&b" +:+ ".html"), tt).
Proof.
  assert (TemplateNameProvider.get_template_name
            Demo.post (<["hint" := PyStr "a&b"]> ∅) tt
          = (Ok "blog/post__a&amp;b.html", tt)) as H by (vm_compute; reflexivity).
  split; [vm_compute; reflexivity|]. split; [exact H|]. rewrite H. discriminate.
Qed.

Lemma hint_order_is_preserved_witness :
  returns (call_get_template_hints Demo.Gallery Demo.post [Demo.Gallery])
          tt (Demo.hints Demo.Gallery) tt
  ∧ ∀ names w2,
      returns (TemplateHintProvider.suggest_template_names
                 Demo.Gallery Demo.post [Demo.Gallery] ∅) tt names w2 →
      ∃ pos : list nat,
        length pos = length names
        ∧ (∀ k i name,
             pos !! k = Some i → names !! k = Some name →
             ∃ hint, Demo.hints Demo.Gallery !! i = Some hint
                     ∧ ∃ wa wb : unit,
                         returns (hinted_name Demo.post ∅ hint) wa name wb)
        ∧ (∀ k i j, pos !! k = Some i → pos !! S k = Some j → i < j).
Proof.
  split; [reflexivity|].
  apply (hint_order_is_preserved Demo.Gallery Demo.post [Demo.Gallery] ∅ tt
           (Demo.hints Demo.Gallery) tt).
  reflexivity.
Defined.

Lemma falsy_hints_are_skipped_witness :
  returns (TemplateHintProvider.suggest_template_names
             Demo.Gallery Demo.post [Demo.Gallery] ∅)
          tt ["blog/post__fancy.html"; "blog/post__lame.html"] tt
  ∧ length ["blog/post__fancy.html"; "blog/post__lame.html"]
    = length (filter (λ h, truthy h) (Demo.hints Demo.Gallery))
  ∧ length ["blog/post__fancy.html"; "blog/post__lame.html"]
    ≤ length (Demo.hints Demo.Gallery).
Proof.
  assert (returns (TemplateHintProvider.suggest_template_names
                     Demo.Gallery Demo.post [Demo.Gallery] ∅)
                  tt ["blog/post__fancy.html"; "blog/post__lame.html"] tt) as Hn
    by (vm_compute; reflexivity).
  split; [exact Hn|].
  apply (proj2 (falsy_hints_are_skipped Demo.Gallery Demo.post [Demo.Gallery] ∅ tt)
           (Demo.hints Demo.Gallery) tt _ tt eq_refl Hn).
Defined.

Lemma composite_context_is_union_witness :
  returns (each (λ p, call_suggest_context_data p Demo.post
                        [Demo.Gallery; Demo.Teaser; Demo.Plain])
                [Demo.Gallery; Demo.Teaser; Demo.Plain])
          tt [Demo.data Demo.Gallery; Demo.data Demo.Teaser; Demo.data Demo.Plain] tt
  ∧ ∃ merged,
      returns (CompositeTemplateHintProvider.suggest_context_data
                 [Demo.Gallery; Demo.Teaser; Demo.Plain] Demo.post None) tt merged tt
      ∧ dom merged
        = ⋃ (dom <$> [Demo.data Demo.Gallery; Demo.data Demo.Teaser;
                      Demo.data Demo.Plain])
      ∧ ∀ k i d v,
          [Demo.data Demo.Gallery; Demo.data Demo.Teaser; Demo.data Demo.Plain] !! i
          = Some d →
          d !! k = Some v →
          (∀ j d', i < j →
                   [Demo.data Demo.Gallery; Demo.data Demo.Teaser;
                    Demo.data Demo.Plain] !! j = Some d' →
                   d' !! k = None) →
          merged !! k = Some v.
Proof.
  split; [reflexivity|].
  apply (composite_context_is_union [Demo.Gallery; Demo.Teaser; Demo.Plain]
           Demo.post None tt).
  reflexivity.
Defined.


Lemma not_found_is_left_to_the_loader_witness :
  returns (each (λ p, call_suggest_template_names p Demo.post [Demo.Teaser] ∅)
                [Demo.Teaser])
          tt [["blog/post__wide.html"]] tt
  ∧ returns (call_get_template_name Demo.post ∅) tt "blog/post_.html" tt
  ∧ returns (TemplateNameProvider.get_template_names Demo.post [Demo.Teaser] ∅)
            tt ["blog/post__wide.html"; "blog/post_.html"] tt.
Proof.
  assert (returns (each (λ p, call_suggest_template_names p Demo.post [Demo.Teaser] ∅)
                        [Demo.Teaser])
                  tt [["blog/post__wide.html"]] tt) as Hrs
    by (vm_compute; reflexivity).
  assert (returns (call_get_template_name Demo.post ∅) tt "blog/post_.html" tt) as Hname
    by (vm_compute; reflexivity).
  split; [exact Hrs|]. split; [exact Hname|].
  exact (proj1 (not_found_is_left_to_the_loader Demo.post [Demo.Teaser] ∅ tt)
               _ tt _ tt Hrs Hname).
Defined.

Lemma context_keys_are_strings_witness :
  returns (each (λ p, call_suggest_context_data p Demo.post
                        [Demo.Gallery; Demo.Teaser])
                [Demo.Gallery; Demo.Teaser])
          tt [Demo.data Demo.Gallery; Demo.data Demo.Teaser] tt
  ∧ Forall keys_are_strings [Demo.data Demo.Gallery; Demo.data Demo.Teaser]
  ∧ ∃ d, returns (CompositeTemplateHintProvider.suggest_context_data
                    [Demo.Gallery; Demo.Teaser] Demo.post None) tt d tt
         ∧ keys_are_strings d.
Proof.
  assert (Forall keys_are_strings [Demo.data Demo.Gallery; Demo.data Demo.Teaser])
    as Hkeys.
  { repeat constructor; intros k; unfold Demo.data;
      rewrite ?dom_insert_L, dom_empty_L;
      rewrite ?elem_of_union, ?elem_of_singleton, elem_of_empty;
      intros H; repeat (destruct H as [->|H]; [exact I|]); destruct H. }
  split; [reflexivity|]. split; [exact Hkeys|].
  exact (proj2 (proj2 (context_keys_are_strings
                         (World:=unit) (N:=TemplateNameProvider.t) (P:=Demo.provider)))
               [Demo.Gallery; Demo.Teaser] Demo.post None tt _ tt eq_refl Hkeys).
Defined.


Lemma names_are_concatenated_witness :
  call_suggest_template_names Demo.Gallery Demo.post [Demo.Gallery] ∅ tt
  = (hints ← call_get_template_hints Demo.Gallery Demo.post [Demo.Gallery];
     each (hinted_name Demo.post ∅) (filter (λ h, truthy h) hints)) tt.
Proof.
  apply (proj2 (proj2 (names_are_concatenated Demo.post [Demo.Gallery] ∅ tt))
           Demo.Gallery [Demo.Gallery]).
  intros w'. reflexivity.
Defined.

(* ===================================================================== *)
(** ** Further properties: composites *)
(* ===================================================================== *)

Section EachLemmas.
Context {World : Type}.

Lemma each_app {A B} (f : A → M World B) (l1 l2 : list A) (w : World) :
  each f (l1 ++ l2) w
  = (ys1 ← each f l1; ys2 ← each f l2; ret (ys1 ++ ys2)) w.
Proof.
  revert w. induction l1 as [|x l1 IH]; intros w; simpl.
  - unfold_M. by destruct (each f l2 w) as [[ys|e] w1].
  - unfold_M. destruct (f x w) as [[y|e] w1]; [|done].
    specialize (IH w1). unfold_M. rewrite IH.
    destruct (each f l1 w1) as [[ys1|e] w2]; [|done].
    by destruct (each f l2 w2) as [[ys2|e] w3].
Qed.

(** The calls stop at the first one that raises. *)
Lemma each_stops {A B} (f : A → M World B) (l1 l2 : list A) x w ys w1 e w2 :
  each f l1 w = (Ok ys, w1) → f x w1 = (Raise e, w2) →
  each f (l1 ++ x :: l2) w = (Raise e, w2).
Proof.
  intros H1 Hx. rewrite each_app. unfold_M. rewrite H1. simpl. unfold_M.
  by rewrite Hx.
Qed.

Lemma each_ext {A B} (f g : A → M World B) (l : list A) (w : World) :
  (∀ x w, f x w = g x w) → each f l w = each g l w.
Proof.
  intros Hfg. revert w. induction l as [|x l IH]; intros w; simpl; [done|].
  unfold_M. rewrite Hfg. destruct (g x w) as [[y|e] w1]; [|done]. by rewrite IH.
Qed.

End EachLemmas.

Section CompositeProperties.
Context {World N P : Type}.
Context `{!GetTemplateName World N} `{!GetTemplateHints World N P}
  `{!SuggestContextData World N P} `{!SuggestTemplateNames World N P}.
Implicit Types (w : World) (name_provider : N) (kwargs : kwdict).

(** X1: [CompositeTemplateHintProvider.get_template_hints] asks the
    providers of the list it walks (its argument, or itself for [None]) in
    order, each with that same list as [hint_providers], and returns their
    hints concatenated in that order; a hint is in the result exactly when
    one of the providers returned it. *)
Theorem composite_hints_are_concatenated (c : list P) name_provider
    (arg : option (list P)) w :
  CompositeTemplateHintProvider.get_template_hints c name_provider arg w
  = (rs ← each (λ p, call_get_template_hints p name_provider (provider_list c arg))
            (provider_list c arg);
     ret (concat rs)) w
  ∧ ∀ rs w',
      returns (each (λ p, call_get_template_hints p name_provider (provider_list c arg))
                    (provider_list c arg)) w rs w' →
      returns (CompositeTemplateHintProvider.get_template_hints c name_provider arg)
              w (concat rs) w'
      ∧ length (concat rs) = sum_list (length <$> rs)
      ∧ ∀ hint, hint ∈ concat rs ↔ ∃ r, r ∈ rs ∧ hint ∈ r.
Proof.
  split; [apply composite_hints_eq|].
  intros rs w' Hrs. unfold returns in *. split; [|split].
  - rewrite composite_hints_eq. cbv zeta. unfold_M. by rewrite Hrs.
  - clear Hrs. induction rs as [|r rs IH]; simpl; [done|].
    by rewrite length_app, IH.
  - intros hint. clear Hrs. induction rs as [|r rs IH]; simpl.
    + split; [by intros ?%elem_of_nil|by intros (r & ?%elem_of_nil & _)].
    + rewrite elem_of_app, IH. split.
      * intros [Hr | (r' & Hr' & Hh)]; [exists r; split; [left|done]|].
        exists r'. split; [by right|done].
      * intros (r' & [-> | Hr']%elem_of_cons & Hh); [by left|].
        right. by exists r'.
Qed.

(** X2: a provider that raises ends each of the three methods of a
    composite at once: the exception and the state are those of the failing
    call, and the providers after it are not called. *)
Theorem composite_stops_at_first_failure (c : list P) name_provider
    (arg : option (list P)) kwargs l1 p l2 w e w2 :
  provider_list c arg = l1 ++ p :: l2 →
  (∀ rs w1,
     returns (each (λ q, call_get_template_hints q name_provider (provider_list c arg))
                   l1) w rs w1 →
     raises (call_get_template_hints p name_provider (provider_list c arg)) w1 e w2 →
     raises (CompositeTemplateHintProvider.get_template_hints c name_provider arg)
            w e w2)
  ∧ (∀ ds w1,
       returns (each (λ q, call_suggest_context_data q name_provider
                             (provider_list c arg)) l1) w ds w1 →
       raises (call_suggest_context_data p name_provider (provider_list c arg))
              w1 e w2 →
       raises (CompositeTemplateHintProvider.suggest_context_data c name_provider arg)
              w e w2)
  ∧ (∀ rs w1,
       returns (each (λ q, call_suggest_template_names q name_provider
                             (provider_list c arg) kwargs) l1) w rs w1 →
       raises (call_suggest_template_names p name_provider (provider_list c arg) kwargs)
              w1 e w2 →
       raises (CompositeTemplateHintProvider.suggest_template_names
                 c name_provider arg kwargs) w e w2).
Proof.
  intros Hl. unfold returns, raises. split; [|split].
  - intros rs w1 Hrs Hp. rewrite composite_hints_eq. cbv zeta. rewrite Hl at 1.
    unfold mbind, M_bind, bind.
    by rewrite (each_stops _ l1 l2 p w rs w1 e w2 Hrs Hp).
  - intros ds w1 Hds Hp. rewrite composite_context_eq. cbv zeta. rewrite Hl at 1.
    unfold mbind, M_bind, bind.
    by rewrite (each_stops _ l1 l2 p w ds w1 e w2 Hds Hp).
  - intros rs w1 Hrs Hp. rewrite composite_names_eq. cbv zeta. rewrite Hl at 1.
    unfold mbind, M_bind, bind.
    by rewrite (each_stops _ l1 l2 p w rs w1 e w2 Hrs Hp).
Qed.

End CompositeProperties.

(* ===================================================================== *)
(** ** Further properties: hints and names *)
(* ===================================================================== *)

Section HintsAndNames.
Context {World N P : Type}.
Context `{!GetTemplateName World N} `{!GetTemplateHints World N P}
  `{!SuggestContextData World N P} `{!SuggestTemplateNames World N P}.
Implicit Types (w : World) (self : P) (name_provider : N) (kwargs : kwdict).

(** X3: when [kwargs] already has a [hint] keyword,
    [TemplateHintProvider.suggest_template_names] raises [TypeError] as
    soon as the hint list has a truthy hint, before any call of
    [get_template_name] (the state is the one [get_template_hints] left);
    when no hint is truthy it returns the empty list. *)
Theorem duplicate_hint_keyword_raises self name_provider (hint_providers : list P)
    kwargs v w hints w1 :
  kwargs !! "hint" = Some v →
  returns (call_get_template_hints self name_provider hint_providers) w hints w1 →
  (Exists (λ h, truthy h) hints →
   raises (TemplateHintProvider.suggest_template_names
             self name_provider hint_providers kwargs) w TypeError w1)
  ∧ (Forall (λ h, ¬ truthy h) hints →
     returns (TemplateHintProvider.suggest_template_names
                self name_provider hint_providers kwargs) w [] w1).
Proof.
  intros Hkw Hh. unfold returns, raises in *.
  assert (TemplateHintProvider.suggest_template_names
            self name_provider hint_providers kwargs w
          = each (hinted_name name_provider kwargs) (filter (λ h, truthy h) hints) w1)
    as ->.
  { rewrite hint_provider_names_eq. unfold mbind at 1. unfold M_bind, bind at 1.
    by rewrite Hh. }
  split.
  - intros Hex. apply Exists_exists in Hex as (h & Hin & Ht).
    assert (h ∈ filter (λ h, truthy h) hints) as Hf by by apply list_elem_of_filter.
    destruct (filter (λ h, truthy h) hints) as [|x l]; [by apply elem_of_nil in Hf|].
    simpl. unfold hinted_name, with_keyword. rewrite Hkw. reflexivity.
  - intros Hall.
    assert (filter (λ h : pyval, Is_true (truthy h)) hints = []) as ->; [|done].
    clear Hh. induction Hall as [|h l Hh Hl IH]; [done|].
    rewrite filter_cons. by rewrite decide_False.
Qed.

(** With collaborators that have no side effects and hint lists that are
    returned, the names of the providers, one provider after the other,
    are the names of all their hints. *)
Lemma names_of_all_hints name_provider kwargs (full l : list P) w hs w' :
  (∀ p l' w, call_suggest_template_names p name_provider l' kwargs w
             = TemplateHintProvider.suggest_template_names
                 p name_provider l' kwargs w) →
  (∀ (p : P) n l', effect_free (call_get_template_hints p n l')) →
  (∀ (n : N) kw, effect_free (call_get_template_name n kw)) →
  each (λ p, call_get_template_hints p name_provider full) l w = (Ok hs, w') →
  (rs ← each (λ p, call_suggest_template_names p name_provider full kwargs) l;
   ret (concat rs)) w
  = each (hinted_name name_provider kwargs) (filter (λ h, truthy h) (concat hs)) w.
Proof.
  intros Hinh Hh Hg. revert hs. induction l as [|p l IH]; intros hs.
  - simpl. unfold_M. by intros [= <- _].
  - cbn [each]. intros Hhs.
    assert (∃ h hs', hs = h :: hs' ∧ call_get_template_hints p name_provider full w = (Ok h, w)
             ∧ each (λ p, call_get_template_hints p name_provider full) l w = (Ok hs', w')) as (h & hs' & -> & Hp & Hl).
    { unfold_M. pose proof (Hh p name_provider full w) as Hpw.
      destruct (call_get_template_hints p name_provider full w) as [[h|e] w1]; [|done].
      simpl in Hpw. subst w1.
      destruct (each _ l w) as [[hs'|e] w2]; [|done].
      injection Hhs as <- <-. eauto. }
    specialize (IH hs' Hl).
    cbn [concat]. rewrite filter_app, each_app.
    assert (call_suggest_template_names p name_provider full kwargs w
            = each (hinted_name name_provider kwargs) (filter (λ h0, truthy h0) h) w) as Hnames.
    { rewrite Hinh, hint_provider_names_eq. unfold mbind at 1. unfold M_bind, bind at 1. by rewrite Hp. }
    assert (effect_free (each (hinted_name name_provider kwargs)
                              (filter (λ h0, truthy h0) h))) as Hfree.
    { apply each_effect_free. intros x _. by apply effect_free_hinted_name. }
    specialize (Hfree w). unfold mbind, M_bind, bind in *.
    rewrite Hnames.
    destruct (each (hinted_name name_provider kwargs) (filter (λ h0, truthy h0) h) w)
      as [[ys|e] w3]; simpl in Hfree; subst w3; [|done].
    rewrite <- IH.
    by destruct (each (λ p0, call_suggest_template_names p0 name_provider full kwargs)
                      l w) as [[rs|e] w3].
Qed.

(** X4: for providers that inherit [suggest_template_names], and
    collaborators without side effects, a composite is one provider whose
    hints are the hints of its members: when [get_template_hints] of the
    composite returns [hints], its [suggest_template_names] makes the calls
    [get_template_name(hint=h)] for the truthy [h] of [hints], in order. *)
Theorem composite_names_follow_composite_hints (c : list P) name_provider
    (arg : option (list P)) kwargs w hints w' :
  (∀ p l' w, call_suggest_template_names p name_provider l' kwargs w
             = TemplateHintProvider.suggest_template_names
                 p name_provider l' kwargs w) →
  (∀ (p : P) n l', effect_free (call_get_template_hints p n l')) →
  (∀ (n : N) kw, effect_free (call_get_template_name n kw)) →
  returns (CompositeTemplateHintProvider.get_template_hints c name_provider arg)
          w hints w' →
  CompositeTemplateHintProvider.suggest_template_names c name_provider arg kwargs w
  = each (hinted_name name_provider kwargs) (filter (λ h, truthy h) hints) w.
Proof.
  intros Hinh Hh Hg Hhints. unfold returns in Hhints.
  rewrite composite_hints_eq in Hhints. cbv zeta in Hhints.
  rewrite composite_names_eq. cbv zeta.
  unfold mbind at 1, M_bind, bind at 1 in Hhints.
  destruct (each _ (provider_list c arg) w) as [[hs|e] w1] eqn:Hhs; [|done].
  injection Hhints as <- <-.
  by apply (names_of_all_hints _ _ _ _ _ hs w1).
Qed.

(** X5: under the same conditions [get_template_names] returns the names
    of the truthy hints of all providers, in order, and then the name
    without a hint. *)
Theorem names_follow_composite_hints (self : N) (hint_providers : list P)
    kwargs w hints w' :
  (∀ p l' w, call_suggest_template_names p self l' kwargs w
             = TemplateHintProvider.suggest_template_names p self l' kwargs w) →
  (∀ (p : P) n l', effect_free (call_get_template_hints p n l')) →
  (∀ (n : N) kw, effect_free (call_get_template_name n kw)) →
  returns (CompositeTemplateHintProvider.get_template_hints hint_providers self None)
          w hints w' →
  TemplateNameProvider.get_template_names self hint_providers kwargs w
  = (names ← each (hinted_name self kwargs) (filter (λ h, truthy h) hints);
     name ← call_get_template_name self kwargs;
     ret (names ++ [name])) w.
Proof.
  intros Hinh Hh Hg Hhints. unfold returns in Hhints.
  rewrite composite_hints_eq in Hhints. cbv zeta in Hhints. simpl in Hhints.
  unfold mbind at 1, M_bind, bind at 1 in Hhints.
  destruct (each _ hint_providers w) as [[hs|e] w1] eqn:Hhs; [|done].
  injection Hhints as <- <-.
  pose proof (names_of_all_hints self kwargs hint_providers hint_providers
                w hs w1 Hinh Hh Hg Hhs) as Hnames.
  rewrite template_names_eq. unfold mbind, M_bind, bind in *.
  rewrite <- Hnames.
  by destruct (each (λ p, call_suggest_template_names p self hint_providers kwargs)
                    hint_providers w) as [[rs|e] w2].
Qed.

End HintsAndNames.

(* ===================================================================== *)
(** ** Further properties: the renderable and its name *)
(* ===================================================================== *)

Lemma lower_ascii_not_upper c : is_upper (lower_ascii c) = false.
Proof. destruct c as [[] [] [] [] [] [] [] []]; reflexivity. Qed.

Lemma lower_ascii_idemp c : lower_ascii (lower_ascii c) = lower_ascii c.
Proof. destruct c as [[] [] [] [] [] [] [] []]; reflexivity. Qed.

Lemma lower_lower_case s : lower_case (lower s).
Proof.
  unfold lower_case. induction s as [|c s IH]; [done|].
  cbn [lower list_ascii_of_string forallb]. by rewrite lower_ascii_not_upper, IH.
Qed.

Lemma lower_idemp s : lower (lower s) = lower s.
Proof.
  induction s as [|c s IH]; [done|]. cbn [lower]. by rewrite lower_ascii_idemp, IH.
Qed.

(** X6: [get_app_label] and [get_model_name] are in lower case whatever
    the case of the names in [_meta]: they hold no upper-case letter, and
    lowering them again changes nothing. *)
Theorem labels_are_lower_case (obj : TemplateNameProvider.t) :
  lower_case (TemplateNameProvider.get_app_label obj)
  ∧ lower_case (TemplateNameProvider.get_model_name obj)
  ∧ lower (TemplateNameProvider.get_app_label obj) = TemplateNameProvider.get_app_label obj
  ∧ lower (TemplateNameProvider.get_model_name obj)
    = TemplateNameProvider.get_model_name obj.
Proof.
  unfold TemplateNameProvider.get_app_label, TemplateNameProvider.get_model_name.
  split_and!; auto using lower_lower_case, lower_idemp.
Qed.

Section RenderableProperties.
Context {World : Type}.
Implicit Types (w : World) (page : Renderable.t) (kwargs : kwdict).

(** X7: the context of a renderable has the renderable itself under
    ["object"] and under its context object name, and nothing else; the
    two keys are one when the name is ["object"].  The name is
    [context_object_name] when that is a non-empty string, and the model
    name in lower case when it is [None] or empty. *)
Theorem context_data_names_the_object page kwargs w :
  ∃ d,
    returns (Renderable.get_context_data page kwargs) w d w
    ∧ dom d = ({[ PyStr "object"; PyStr (Renderable.get_context_object_name page) ]}
               : gset pyval)
    ∧ d !! PyStr "object" = Some (TemplateNameProvider.as_value (Renderable.base page))
    ∧ d !! PyStr (Renderable.get_context_object_name page)
      = Some (TemplateNameProvider.as_value (Renderable.base page))
    ∧ size d = (if decide (Renderable.get_context_object_name page = "object")
                then 1 else 2)
    ∧ (∀ name, Renderable.context_object_name page = Some name → name ≠ "" →
               Renderable.get_context_object_name page = name)
    ∧ (Renderable.context_object_name page = None
       ∨ Renderable.context_object_name page = Some "" →
       Renderable.get_context_object_name page
       = lower (TemplateNameProvider.object_name
                  (TemplateNameProvider._meta (Renderable.base page)))).
Proof.
  eexists. split; [reflexivity|]. split_and!.
  - rewrite !dom_insert_L, dom_empty_L. by rewrite (right_id_L ∅ (∪)).
  - apply lookup_insert_eq.
  - destruct (decide (Renderable.get_context_object_name page = "object")) as [->|Hne].
    + apply lookup_insert_eq.
    + rewrite lookup_insert_ne by congruence. apply lookup_insert_eq.
  - destruct (decide (Renderable.get_context_object_name page = "object")) as [->|Hne].
    + rewrite insert_insert_eq, map_size_insert_None by apply lookup_empty.
      by rewrite map_size_empty.
    + rewrite map_size_insert_None.
      * rewrite map_size_insert_None by apply lookup_empty. by rewrite map_size_empty.
      * rewrite lookup_insert_ne by congruence. apply lookup_empty.
  - intros name Hname Hne. unfold Renderable.get_context_object_name. rewrite Hname.
    cbn [truthy]. by destruct (String.eqb_spec name "").
  - intros [Hnone | Hempty]; unfold Renderable.get_context_object_name.
    + by rewrite Hnone.
    + by rewrite Hempty.
Qed.

End RenderableProperties.

(* ===================================================================== *)
(** ** Further properties: the default pattern *)
(* ===================================================================== *)

Section DefaultPatternCases.
Context {World : Type} `{!Django.Engine World}.
Implicit Types (w : World) (obj : TemplateNameProvider.t) (keywords kwargs : kwdict).

Lemma name_context_lookup_keyword obj kwargs k v :
  k ≠ "template_name" → kwargs !! k = Some v → name_context obj kwargs !! k = Some v.
Proof.
  intros Hk Hv. unfold name_context, Django.Context, update.
  apply lookup_union_Some_l, lookup_union_Some_l. by rewrite lookup_delete_ne.
Qed.

Lemma name_context_lookup_app_label obj kwargs :
  kwargs !! "app_label" = None →
  name_context obj kwargs !! "app_label"
  = Some (PyStr (TemplateNameProvider.get_app_label obj)).
Proof.
  intros Hk. unfold name_context, Django.Context, update.
  apply lookup_union_Some_l. rewrite lookup_union_r by by rewrite lookup_delete_ne.
  apply lookup_insert_eq.
Qed.

Lemma name_context_lookup_object_name obj kwargs :
  kwargs !! "object_name" = None →
  name_context obj kwargs !! "object_name"
  = Some (PyStr (TemplateNameProvider.get_model_name obj)).
Proof.
  intros Hk. unfold name_context, Django.Context, update.
  apply lookup_union_Some_l. rewrite lookup_union_r by by rewrite lookup_delete_ne.
  rewrite lookup_insert_ne by done. apply lookup_insert_eq.
Qed.

Lemma name_context_lookup_unset obj kwargs k :
  k = "type" ∨ k = "partial" →
  name_context obj kwargs !! k = kwargs !! k.
Proof.
  intros Hk. unfold name_context, Django.Context, update.
  rewrite !lookup_union, lookup_delete_ne by (destruct Hk as [-> | ->]; done).
  rewrite !lookup_insert_ne, lookup_empty by (destruct Hk as [-> | ->]; done).
  assert (Django.builtins !! k = None) as -> by (destruct Hk as [-> | ->]; reflexivity).
  by destruct (kwargs !! k).
Qed.

(** The part of the default pattern before the hint, for a call that
    leaves the labels to the object. *)
Lemma render_stem_plain obj kwargs :
  kwargs !! "app_label" = None → kwargs !! "object_name" = None →
  Django.render_nodelist (name_context obj kwargs) stem_nodes
  = Django.escape (TemplateNameProvider.get_app_label obj) +:+ "/" +:+
    (if truthy (or_ (default PyNone (kwargs !! "partial"))
                    (PyBool (eqb (default PyNone (kwargs !! "type")) (PyStr "partial"))))
     then "_" else "") +:+
    Django.escape (TemplateNameProvider.get_model_name obj) +:+
    (if eqb (default PyNone (kwargs !! "type")) (PyStr "partial") then ""
     else "_" +:+ match kwargs !! "type" with
                  | Some v => Django.escape (str v)
                  | None => ""
                  end).
Proof.
  intros Ha Ho. unfold stem_nodes.
  cbn [Django.render_nodelist Django.render_node Django.eval].
  unfold Django.render_variable.
  rewrite (name_context_lookup_app_label obj kwargs Ha).
  rewrite (name_context_lookup_object_name obj kwargs Ho).
  rewrite !(name_context_lookup_unset obj kwargs "type") by by left.
  rewrite !(name_context_lookup_unset obj kwargs "partial") by by right.
  cbn [str truthy]. rewrite !append_empty_r.
  destruct (eqb (default PyNone (kwargs !! "type")) (PyStr "partial")); cbn [negb].
  - destruct (truthy _); by rewrite ?append_empty_r.
  - destruct (truthy _); by rewrite ?append_empty_r.
Qed.

(** The name of a plain call. *)
Lemma plain_call_value obj kwargs w :
  plain_call obj kwargs →
  TemplateNameProvider.get_template_name obj kwargs w
  = (Ok (Django.render_nodelist (name_context obj kwargs) stem_nodes +:+ ".html"), w).
Proof.
  intros (Hdef & Ha & Ho & Hh). rewrite default_name_value by done.
  unfold Django.render. rewrite template_name_nodes_split, render_nodelist_app.
  by rewrite (render_hint_absent _ (name_context_lookup_no_hint obj kwargs Hh)).
Qed.

(** X8: with [type="partial"] the default pattern names the template
    [<app>/_<model>.html]: an underscore before the model name and no type
    after it, whatever [partial] is; the two labels are the lower-case
    names of the model, HTML-escaped. *)
Theorem partial_type_name obj kwargs w :
  plain_call obj kwargs →
  kwargs !! "type" = Some (PyStr "partial") →
  returns (TemplateNameProvider.get_template_name obj kwargs) w
          (Django.escape (TemplateNameProvider.get_app_label obj) +:+ "/_" +:+
           Django.escape (TemplateNameProvider.get_model_name obj) +:+ ".html") w.
Proof.
  intros Hplain Ht. unfold returns. rewrite plain_call_value by done.
  destruct Hplain as (_ & Ha & Ho & _).
  rewrite render_stem_plain by done. rewrite Ht.
  cbn [default]. unfold or_. change (id (PyStr "partial")) with (PyStr "partial").
  assert (eqb (PyStr "partial") (PyStr "partial") = true) as -> by reflexivity.
  destruct (truthy (default PyNone (kwargs !! "partial"))) eqn:Hp;
    [rewrite Hp|cbn [truthy]]; rewrite ?append_empty_r, !append_assoc; reflexivity.
Qed.

(** X9: with a [type] string other than ["partial"] the default pattern
    names the template [<app>/<model>_<type>.html], the type HTML-escaped,
    with an underscore before the model name when [partial] is truthy. *)
Theorem typed_name obj kwargs t w :
  plain_call obj kwargs →
  kwargs !! "type" = Some (PyStr t) → t ≠ "partial" →
  returns (TemplateNameProvider.get_template_name obj kwargs) w
          (Django.escape (TemplateNameProvider.get_app_label obj) +:+ "/" +:+
           partial_mark kwargs +:+
           Django.escape (TemplateNameProvider.get_model_name obj) +:+ "_" +:+
           Django.escape t +:+ ".html") w.
Proof.
  intros Hplain Ht Hne. unfold returns. rewrite plain_call_value by done.
  destruct Hplain as (_ & Ha & Ho & _).
  rewrite render_stem_plain by done. rewrite Ht.
  cbn [default str]. unfold or_, partial_mark. change (id (PyStr t)) with (PyStr t).
  assert (eqb (PyStr t) (PyStr "partial") = false) as ->.
  { apply bool_decide_eq_false_2. congruence. }
  destruct (truthy (default PyNone (kwargs !! "partial"))) eqn:Hp;
    [rewrite Hp|cbn [truthy]]; rewrite !append_assoc; reflexivity.
Qed.

(** X10: without a [type] keyword the default pattern still writes the
    underscore that goes before the type: the template is named
    [<app>/<model>_.html]. *)
Theorem untyped_name obj kwargs w :
  plain_call obj kwargs →
  kwargs !! "type" = None →
  returns (TemplateNameProvider.get_template_name obj kwargs) w
          (Django.escape (TemplateNameProvider.get_app_label obj) +:+ "/" +:+
           partial_mark kwargs +:+
           Django.escape (TemplateNameProvider.get_model_name obj) +:+ "_.html") w.
Proof.
  intros Hplain Ht. unfold returns. rewrite plain_call_value by done.
  destruct Hplain as (_ & Ha & Ho & _).
  rewrite render_stem_plain by done. rewrite Ht.
  cbn [default]. unfold or_, partial_mark.
  assert (eqb PyNone (PyStr "partial") = false) as -> by reflexivity.
  destruct (truthy (default PyNone (kwargs !! "partial"))) eqn:Hp;
    [rewrite Hp|cbn [truthy]]; rewrite ?append_empty_r, !append_assoc; reflexivity.
Qed.

End DefaultPatternCases.

(* ===================================================================== *)
(** ** Further properties: hints, keywords and patterns *)
(* ===================================================================== *)

Lemma render_hint_truthy (ctx : kwdict) v :
  ctx !! "hint" = Some v → truthy v →
  Django.render_nodelist ctx hint_nodes = "_" +:+ Django.escape (str v) +:+ ".html".
Proof.
  intros Hh Hv. unfold hint_nodes.
  cbn [Django.render_nodelist Django.render_node Django.eval].
  unfold Django.render_variable. rewrite Hh.
  change (default PyNone (Some v)) with v.
  destruct (truthy v); [|done].
  rewrite !append_empty_r, append_assoc. reflexivity.
Qed.

Lemma render_hint_falsy (ctx : kwdict) v :
  ctx !! "hint" = Some v → ¬ truthy v →
  Django.render_nodelist ctx hint_nodes = ".html".
Proof.
  intros Hh Hv. unfold hint_nodes.
  cbn [Django.render_nodelist Django.render_node Django.eval].
  rewrite Hh. change (default PyNone (Some v)) with v.
  by destruct (truthy v).
Qed.

Lemma tag_at_no_brace c s : c ≠ "{"%char → Django.tag_at (String c s) = None.
Proof.
  intros Hc. destruct c as [[] [] [] [] [] [] [] []]; try reflexivity. done.
Qed.

Lemma tokenize_no_brace s text :
  no_brace s → Django.tokenize_from s 0 text = Django.flush (text +:+ s).
Proof.
  unfold no_brace. revert text. induction s as [|c s IH]; intros text.
  - intros _. simpl. by rewrite append_empty_r.
  - cbn [list_ascii_of_string forallb]. intros [Hc Hs]%andb_prop.
    apply negb_true_iff, bool_decide_eq_false in Hc.
    cbn [Django.tokenize_from]. rewrite tag_at_no_brace by done.
    rewrite IH by done. by rewrite append_assoc.
Qed.

Lemma Template_no_brace s :
  no_brace s → ∃ nodes, Django.Template s = Some nodes
                        ∧ ∀ ctx, Django.render nodes ctx = s.
Proof.
  intros Hs. unfold Django.Template, Django.tokenize.
  rewrite tokenize_no_brace by done.
  change (EmptyString +:+ s) with s. unfold Django.flush.
  destruct (String.eqb_spec s "") as [->|Hne].
  - by exists [].
  - exists [Django.TextNode s]. split; [reflexivity|].
    intros ctx. unfold Django.render. cbn [Django.render_nodelist Django.render_node].
    apply append_empty_r.
Qed.

Section HintsKeywordsPatterns.
Context {World : Type} `{!Django.Engine World}.
Implicit Types (w : World) (obj : TemplateNameProvider.t) (keywords kwargs : kwdict).

(** X11: under the default pattern a non-empty hint string [h] adds
    ["_"] and the HTML-escaped [h] right before [".html"] and changes
    nothing else of the name; for an [h] without the characters HTML
    reserves the addition is ["_"] and [h] itself. *)
Theorem string_hint_is_a_suffix obj kwargs h w :
  default_pattern obj kwargs →
  kwargs !! "hint" = None →
  h ≠ "" →
  ∃ stem,
    returns (TemplateNameProvider.get_template_name obj kwargs) w (stem +:+ ".html") w
    ∧ returns (TemplateNameProvider.get_template_name obj (<["hint" := PyStr h]> kwargs))
              w (stem +:+ "_" +:+ Django.escape h +:+ ".html") w
    ∧ (html_plain h → Django.escape h = h).
Proof.
  intros Hdef Hnohint Hne.
  assert (truthy (PyStr h)) as Hv.
  { cbn [truthy]. by destruct (String.eqb_spec h ""). }
  assert (default_pattern obj (<["hint" := PyStr h]> kwargs)) as Hdef'.
  { destruct Hdef as [Ha Hb]. split; [done|]. by rewrite lookup_insert_ne. }
  exists (Django.render_nodelist (name_context obj kwargs) stem_nodes).
  unfold returns. rewrite !default_name_value by done.
  unfold Django.render. rewrite template_name_nodes_split, !render_nodelist_app.
  rewrite (render_hint_absent (name_context obj kwargs))
    by by apply name_context_lookup_no_hint.
  rewrite (render_hint_truthy _ (PyStr h)) by (apply name_context_lookup_hint || done).
  rewrite (render_stem_agree (name_context obj (<["hint" := PyStr h]> kwargs))
                             (name_context obj kwargs))
    by by apply name_context_lookup_other.
  split; [done|]. split; [done|]. apply escape_plain.
Qed.

(** X12: under the default pattern a falsy hint ([None], [False], the
    empty string) gives the name of the call without a hint. *)
Theorem falsy_hint_changes_nothing obj kwargs v w :
  default_pattern obj kwargs →
  kwargs !! "hint" = None →
  ¬ truthy v →
  TemplateNameProvider.get_template_name obj (<["hint" := v]> kwargs) w
  = TemplateNameProvider.get_template_name obj kwargs w.
Proof.
  intros Hdef Hnohint Hv.
  assert (default_pattern obj (<["hint" := v]> kwargs)) as Hdef'.
  { destruct Hdef as [Ha Hb]. split; [done|]. by rewrite lookup_insert_ne. }
  rewrite !default_name_value by done.
  unfold Django.render. rewrite template_name_nodes_split, !render_nodelist_app.
  rewrite (render_hint_absent (name_context obj kwargs))
    by by apply name_context_lookup_no_hint.
  rewrite (render_hint_falsy _ v) by (apply name_context_lookup_hint || done).
  rewrite (render_stem_agree (name_context obj (<["hint" := v]> kwargs))
                             (name_context obj kwargs))
    by by apply name_context_lookup_other.
  done.
Qed.

(** X13: the keywords of the call hide the variables [get_template_name]
    computes: for any pattern, two objects with the same [template_name]
    attribute get the same name when each of [app_label], [object_name] and
    [object] is either passed as a keyword or equal for the two. *)
Theorem keywords_hide_the_object obj obj' keywords w :
  TemplateNameProvider.self_template_name obj
  = TemplateNameProvider.self_template_name obj' →
  is_Some (keywords !! "app_label")
  ∨ TemplateNameProvider.get_app_label obj = TemplateNameProvider.get_app_label obj' →
  is_Some (keywords !! "object_name")
  ∨ TemplateNameProvider.get_model_name obj = TemplateNameProvider.get_model_name obj' →
  is_Some (keywords !! "object")
  ∨ TemplateNameProvider.as_value obj = TemplateNameProvider.as_value obj' →
  TemplateNameProvider.get_template_name obj keywords w
  = TemplateNameProvider.get_template_name obj' keywords w.
Proof.
  intros Hattr Ha Ho Hs.
  assert (update
            (<["app_label" := PyStr (TemplateNameProvider.get_app_label obj)]>
               (<["object_name" := PyStr (TemplateNameProvider.get_model_name obj)]>
                  (<["object" := TemplateNameProvider.as_value obj]> ∅)))
            (delete "template_name" keywords)
          = update
              (<["app_label" := PyStr (TemplateNameProvider.get_app_label obj')]>
                 (<["object_name" := PyStr (TemplateNameProvider.get_model_name obj')]>
                    (<["object" := TemplateNameProvider.as_value obj']> ∅)))
              (delete "template_name" keywords)) as Hctx;
    [|unfold TemplateNameProvider.get_template_name; cbv zeta;
      by rewrite Hattr, Hctx].
  unfold update. apply map_eq. intros k.
  rewrite !lookup_union.
  destruct (decide (k = "app_label")) as [->|Hk1].
  { rewrite lookup_delete_ne by done. rewrite !lookup_insert_eq.
    destruct Ha as [[v ->] | ->]; done. }
  destruct (decide (k = "object_name")) as [->|Hk2].
  { rewrite lookup_delete_ne by done.
    rewrite !(lookup_insert_ne _ "app_label") by done. rewrite !lookup_insert_eq.
    destruct Ho as [[v ->] | ->]; done. }
  destruct (decide (k = "object")) as [->|Hk3].
  { rewrite lookup_delete_ne by done.
    rewrite !(lookup_insert_ne _ "app_label"), !(lookup_insert_ne _ "object_name") by done.
    rewrite !lookup_insert_eq.
    destruct Hs as [[v ->] | ->]; done. }
  by rewrite !lookup_insert_ne by congruence.
Qed.

(** X14: a pattern without an opening brace is the name: passed as the
    [template_name] keyword, or set as the attribute of the object and not
    overridden by the call, it is returned as it is, whatever the object
    and the other keywords. *)
Theorem literal_pattern_is_the_name obj keywords s w :
  no_brace s →
  keywords !! "template_name" = Some (PyStr s)
  ∨ (TemplateNameProvider.self_template_name obj = s
     ∧ (keywords !! "template_name" = None
        ∨ keywords !! "template_name" = Some PyNone)) →
  returns (TemplateNameProvider.get_template_name obj keywords) w s w.
Proof.
  intros Hs Hpat. unfold returns, TemplateNameProvider.get_template_name.
  destruct (Template_no_brace s Hs) as (nodes & Hnodes & Hrender).
  assert (str match keywords !! "template_name" with
              | Some PyNone | None => PyStr (TemplateNameProvider.self_template_name obj)
              | Some v => v
              end = s) as ->.
  { destruct Hpat as [-> | [<- [-> | ->]]]; reflexivity. }
  rewrite Hnodes. unfold_M. by rewrite Hrender.
Qed.

End HintsKeywordsPatterns.

(* ===================================================================== *)
(** ** The further properties on the concrete objects *)
(* ===================================================================== *)

Lemma composite_hints_are_concatenated_witness :
  returns (CompositeTemplateHintProvider.get_template_hints
             [Demo.Teaser; Demo.Gallery] Demo.post None)
          tt [PyStr "wide"; PyStr "fancy"; PyStr ""; PyNone; PyStr "lame"] tt.
Proof.
  exact (proj1 (proj2 (composite_hints_are_concatenated
                         [Demo.Teaser; Demo.Gallery] Demo.post None tt)
                      [Demo.hints Demo.Teaser; Demo.hints Demo.Gallery] tt eq_refl)).
Defined.

Lemma composite_stops_at_first_failure_witness :
  raises (CompositeTemplateHintProvider.get_template_hints
            [Samples.Sound; Samples.Broken; Samples.Sound] Demo.post None)
         tt (OtherError "LookupError") tt
  ∧ raises (CompositeTemplateHintProvider.suggest_context_data
              [Samples.Sound; Samples.Broken; Samples.Sound] Demo.post None)
           tt (OtherError "LookupError") tt.
Proof.
  pose proof (composite_stops_at_first_failure
                [Samples.Sound; Samples.Broken; Samples.Sound] Demo.post None ∅
                [Samples.Sound] Samples.Broken [Samples.Sound]
                tt (OtherError "LookupError") tt eq_refl) as H.
  split.
  - exact (proj1 H [[PyStr "wide"]] tt eq_refl eq_refl).
  - exact (proj1 (proj2 H) [<[PyStr "title" := PyStr "Sound"]> ∅] tt eq_refl eq_refl).
Defined.

Lemma duplicate_hint_keyword_raises_witness :
  raises (TemplateHintProvider.suggest_template_names
            Demo.Gallery Demo.post [Demo.Gallery] (<["hint" := PyStr "detail"]> ∅))
         tt TypeError tt
  ∧ returns (TemplateHintProvider.suggest_template_names
               Demo.Plain Demo.post [Demo.Plain] (<["hint" := PyStr "detail"]> ∅))
            tt [] tt.
Proof.
  assert (<["hint" := PyStr "detail"]> (∅ : kwdict) !! "hint" = Some (PyStr "detail"))
    as Hkw by (vm_compute; reflexivity).
  split.
  - apply (proj1 (duplicate_hint_keyword_raises
                    Demo.Gallery Demo.post [Demo.Gallery]
                    (<["hint" := PyStr "detail"]> ∅) (PyStr "detail") tt
                    (Demo.hints Demo.Gallery) tt Hkw eq_refl)).
    apply Exists_cons_hd. exact I.
  - apply (proj2 (duplicate_hint_keyword_raises
                    Demo.Plain Demo.post [Demo.Plain]
                    (<["hint" := PyStr "detail"]> ∅) (PyStr "detail") tt
                    (Demo.hints Demo.Plain) tt Hkw eq_refl)).
    constructor.
Defined.

Lemma demo_names_are_inherited (p : Demo.provider) (l : list Demo.provider) (w : unit) :
  call_suggest_template_names p Demo.post l ∅ w
  = TemplateHintProvider.suggest_template_names p Demo.post l ∅ w.
Proof. reflexivity. Qed.

Lemma composite_names_follow_composite_hints_witness :
  CompositeTemplateHintProvider.suggest_template_names
    [Demo.Teaser; Demo.Gallery] Demo.post None ∅ tt
  = each (hinted_name Demo.post ∅)
         (filter (λ h, truthy h)
                 [PyStr "wide"; PyStr "fancy"; PyStr ""; PyNone; PyStr "lame"]) tt.
Proof.
  exact (composite_names_follow_composite_hints
           [Demo.Teaser; Demo.Gallery] Demo.post None ∅ tt
           [PyStr "wide"; PyStr "fancy"; PyStr ""; PyNone; PyStr "lame"] tt
           demo_names_are_inherited demo_hints_effect_free
           (demo_name_effect_free refusing_engine_effect_free)
           eq_refl).
Defined.

Lemma names_follow_composite_hints_witness :
  TemplateNameProvider.get_template_names Demo.post [Demo.Teaser; Demo.Gallery] ∅ tt
  = (names ← each (hinted_name Demo.post ∅)
                  (filter (λ h, truthy h)
                          [PyStr "wide"; PyStr "fancy"; PyStr ""; PyNone; PyStr "lame"]);
     name ← call_get_template_name Demo.post ∅;
     ret (names ++ [name])) tt.
Proof.
  exact (names_follow_composite_hints
           Demo.post [Demo.Teaser; Demo.Gallery] ∅ tt
           [PyStr "wide"; PyStr "fancy"; PyStr ""; PyNone; PyStr "lame"] tt
           demo_names_are_inherited demo_hints_effect_free
           (demo_name_effect_free refusing_engine_effect_free)
           eq_refl).
Defined.

Lemma context_data_names_the_object_witness :
  ∃ d,
    returns (Renderable.get_context_data Demo.page ∅) tt d tt
    ∧ d !! PyStr "object" = Some (PyObj 1 "First post")
    ∧ d !! PyStr "entry" = Some (PyObj 1 "First post")
    ∧ size d = 2.
Proof.
  destruct (context_data_names_the_object Demo.page ∅ tt)
    as (d & Hd & _ & Hobj & Hname & Hsize & _).
  exists d. split; [exact Hd|]. split; [exact Hobj|]. split; [exact Hname|].
  exact Hsize.
Defined.

Lemma demo_plain_call (keywords : kwdict) :
  keywords !! "template_name" = None →
  keywords !! "app_label" = None →
  keywords !! "object_name" = None →
  keywords !! "hint" = None →
  plain_call Demo.post keywords.
Proof. intros Ht Ha Ho Hh. repeat split; auto. Qed.

Lemma partial_type_name_witness :
  returns (TemplateNameProvider.get_template_name
             Demo.post (<["type" := PyStr "partial"]> ∅)) tt "blog/_post.html" tt.
Proof.
  apply (partial_type_name Demo.post (<["type" := PyStr "partial"]> ∅) tt).
  - apply demo_plain_call; vm_compute; reflexivity.
  - vm_compute; reflexivity.
Defined.

Lemma typed_name_witness :
  returns (TemplateNameProvider.get_template_name
             Demo.post (<["type" := PyStr "detail"]> (<["partial" := PyBool true]> ∅)))
          tt "blog/_post_detail.html" tt.
Proof.
  unfold returns.
  rewrite (typed_name Demo.post
             (<["type" := PyStr "detail"]> (<["partial" := PyBool true]> ∅)) "detail" tt).
  - vm_compute; reflexivity.
  - apply demo_plain_call; vm_compute; reflexivity.
  - vm_compute; reflexivity.
  - discriminate.
Defined.

Lemma untyped_name_witness :
  returns (TemplateNameProvider.get_template_name Demo.post ∅) tt "blog/post_.html" tt.
Proof.
  unfold returns. rewrite (untyped_name Demo.post ∅ tt).
  - vm_compute; reflexivity.
  - apply demo_plain_call; vm_compute; reflexivity.
  - vm_compute; reflexivity.
Defined.

Lemma string_hint_is_a_suffix_witness :
  ∃ stem,
    returns (TemplateNameProvider.get_template_name Demo.post ∅) tt (stem +:+ ".html") tt
    ∧ returns (TemplateNameProvider.get_template_name
                 Demo.post (<["hint" := PyStr "a&b"]> ∅))
              tt (stem +:+ "_" +:+ "a&amp;b" +:+ ".html") tt.
Proof.
  destruct (string_hint_is_a_suffix Demo.post ∅ "a&b" tt) as (stem & H1 & H2 & _).
  - split; [reflexivity|left; vm_compute; reflexivity].
  - vm_compute; reflexivity.
  - discriminate.
  - exists stem. split; [exact H1|exact H2].
Defined.

Lemma falsy_hint_changes_nothing_witness :
  TemplateNameProvider.get_template_name Demo.post (<["hint" := PyStr ""]> ∅) tt
  = TemplateNameProvider.get_template_name Demo.post ∅ tt.
Proof.
  apply (falsy_hint_changes_nothing Demo.post ∅ (PyStr "") tt).
  - split; [reflexivity|left; vm_compute; reflexivity].
  - vm_compute; reflexivity.
  - intros [].
Defined.

Lemma keywords_hide_the_object_witness :
  TemplateNameProvider.get_template_name
    Demo.post (<["app_label" := PyStr "shop"]> ∅) tt
  = TemplateNameProvider.get_template_name
      Samples.article (<["app_label" := PyStr "shop"]> ∅) tt.
Proof.
  apply (keywords_hide_the_object Demo.post Samples.article
           (<["app_label" := PyStr "shop"]> ∅) tt).
  - reflexivity.
  - left. exists (PyStr "shop"). vm_compute; reflexivity.
  - right. reflexivity.
  - right. reflexivity.
Defined.

Lemma literal_pattern_is_the_name_witness :
  returns (TemplateNameProvider.get_template_name
             Demo.post (<["template_name" := PyStr "pages/about.html"]>
                          (<["hint" := PyStr "fancy"]> ∅)))
          tt "pages/about.html" tt.
Proof.
  apply (literal_pattern_is_the_name Demo.post _ "pages/about.html" tt).
  - reflexivity.
  - left. vm_compute; reflexivity.
Defined.
